(** * Smart-glasses demand prediction service: a model of [API/prediction.py]

    Conventions of the embedding.
    - A Python [int] is a [Z].  A Python/numpy [float] is a rational [Q] with
      exact arithmetic: every finite float is a rational, rounding error of
      the float operations is idealised away and non-finite values are not
      represented.  A computed float is compared with [==]; a float the code
      returns as a literal is compared with [=].
    - A [dict] keyed by strings is a [gmap string _].
    - A raised exception is the left summand of a result; endpoint code runs
      in a small monad [M] that also records, in order, the feature
      dictionaries the predictor has been called with.
    - The loaded artifacts ([model], [scaler]) are external objects: they are
      records holding the function that their [predict] / [transform] method
      computes on one row.
    - [print] diagnostics are left out. *)

From Stdlib Require Import ZArith QArith Qround Qabs Lqa.
From stdpp Require Import gmap strings list fin_maps pretty.

Local Open Scope Z_scope.

(** ** Python builtins *)

(** [max(a, b)] and [min(a, b)]: the second argument wins only when it is
    strictly greater (resp. smaller). *)
Definition maxZ (a b : Z) : Z := if a <? b then b else a.
Definition minZ (a b : Z) : Z := if b <? a then b else a.
Definition maxQ (a b : Q) : Q := if Qlt_le_dec a b then b else a.
Definition minQ (a b : Q) : Q := if Qlt_le_dec b a then b else a.

(** [round(x)]: nearest integer, ties to the even neighbour. *)
Definition py_round (x : Q) : Z :=
  let f := Qfloor x in
  match (x - inject_Z f ?= 1 # 2)%Q with
  | Lt => f
  | Gt => f + 1
  | Eq => if Z.even f then f else f + 1
  end.

(** [round(x, ndigits)]: nearest multiple of [10^-ndigits], ties to even. *)
Definition py_round_ndigits (x : Q) (ndigits : nat) : Q :=
  let p := 10 ^ Z.of_nat ndigits in
  (inject_Z (py_round (x * inject_Z p)) / inject_Z p)%Q.

(** [sum(d.values())] *)
Definition sum_values (d : gmap string Z) : Z :=
  foldr Z.add 0 (snd <$> map_to_list d).

(** [bool(n)] for an [int] *)
Definition py_bool (n : Z) : bool := negb (n =? 0).

(** ** Exceptions *)

Inductive Exn : Type :=
| HTTPException (status_code : Z) (detail : string)
| PyError (cls : string) (msg : string).

(** [str(e)].  An [HTTPException] prints as ["<status>: <detail>"]. *)
Definition exn_str (e : Exn) : string :=
  match e with
  | HTTPException status_code detail => pretty status_code +:+ ": " +:+ detail
  | PyError _ msg => msg
  end.

Definition KeyError (key : string) : Exn :=
  PyError "KeyError" ("'" +:+ key +:+ "'").

(** Raised when the handler of [predict_smart_glasses_demand] reads
    [feature_data] before the [try] body has bound it. *)
Definition UnboundLocalError (name : string) : Exn :=
  PyError "UnboundLocalError"
    ("cannot access local variable '" +:+ name +:+
     "' where it is not associated with a value").

(** [d[key]] *)
Definition getitem {V : Type} (d : gmap string V) (key : string) : Exn + V :=
  match d !! key with
  | Some v => inr v
  | None => inl (KeyError key)
  end.

(** ** Process-wide state *)

Record Model : Type := { predict : list Q -> Exn + Q }.
Record Scaler : Type := { transform : list Q -> Exn + list Q }.

Record Globals : Type := {
  model : option Model;
  scaler : option Scaler;
  actual_feature_names : list string
}.

(** The nine column names installed by [lifespan] when the artifacts expose
    no [feature_names_in_], or when loading fails. *)
Definition fallback_feature_names : list string :=
  [ "Training related to Cognition";
    "Training related to Communication";
    "Training related to Hearing";
    "Training related to Mobility";
    "Training related to Self-care";
    "Training related to Vision";
    "total_training_score";
    "vision_mobility_score";
    "assistive_tech_readiness" ]%string.

(** The state [lifespan] leaves behind when loading raised before [model]
    was assigned. *)
Definition demo_globals : Globals :=
  {| model := None; scaler := None;
     actual_feature_names := fallback_feature_names |}.

Definition demo_mode (g : Globals) : bool :=
  match model g, scaler g with
  | Some _, Some _ => false
  | _, _ => true
  end.

(** ** Requests *)

Record PredictionRequest : Type := {
  cognition : Z;
  communication : Z;
  hearing : Z;
  mobility : Z;
  self_care : Z;
  vision : Z
}.

(** The [features] dictionary both endpoints build from a request. *)
Definition features_of (request : PredictionRequest) : gmap string Z :=
  <["vision" := vision request]>
  (<["self_care" := self_care request]>
  (<["mobility" := mobility request]>
  (<["hearing" := hearing request]>
  (<["communication" := communication request]>
  (<["cognition" := cognition request]> ∅))))).

(** ** Demand interpretation *)

Definition get_demand_interpretation (score : Z) : string * string :=
  if score =? 1 then
    ("Low", "Market shows low demand. Focus on awareness and education programs.")%string
  else if score =? 2 then
    ("Medium", "Moderate demand expected. Consider targeted marketing and partnerships.")%string
  else
    ("High", "High demand potential! Prioritize manufacturing and distribution in this region.")%string.

(** ** The predictor *)

(** The three engineered features (first lines of the [try] body). *)
Record Engineered : Type := {
  total_training_score : Z;
  vision_mobility_score : Z;
  assistive_tech_readiness : Q
}.

Definition engineer (features : gmap string Z) : Exn + Engineered :=
  let total := sum_values features in
  match getitem features "vision" with
  | inl e => inl e
  | inr v =>
    match getitem features "mobility" with
    | inl e => inl e
    | inr m =>
      inr {| total_training_score := total;
             vision_mobility_score := v + m;
             assistive_tech_readiness := (inject_Z total / 6) * 100 |}
    end
  end.

(** The [feature_data] dictionary, keyed by the training column names. *)
Definition build_feature_data (features : gmap string Z) : Exn + gmap string Q :=
  match engineer features with
  | inl e => inl e
  | inr eng =>
    match getitem features "cognition", getitem features "communication",
          getitem features "hearing", getitem features "mobility",
          getitem features "self_care", getitem features "vision" with
    | inr c, inr co, inr h, inr m, inr s, inr v =>
      inr (<["assistive_tech_readiness" := assistive_tech_readiness eng]>
          (<["vision_mobility_score" := inject_Z (vision_mobility_score eng)]>
          (<["total_training_score" := inject_Z (total_training_score eng)]>
          (<["Training related to Vision" := inject_Z v]>
          (<["Training related to Self-care" := inject_Z s]>
          (<["Training related to Mobility" := inject_Z m]>
          (<["Training related to Hearing" := inject_Z h]>
          (<["Training related to Communication" := inject_Z co]>
          (<["Training related to Cognition" := inject_Z c]> ∅)))))))))
    | inl e, _, _, _, _, _ => inl e
    | _, inl e, _, _, _, _ => inl e
    | _, _, inl e, _, _, _ => inl e
    | _, _, _, inl e, _, _ => inl e
    | _, _, _, _, inl e, _ => inl e
    | _, _, _, _, _, inl e => inl e
    end
  end.

(** The single data-frame row handed to the scaler: one cell per expected
    name, in the expected order; a name [feature_data] lacks gets [0]. *)
Definition feature_row (names : list string) (feature_data : gmap string Q) : list Q :=
  (fun name => default 0%Q (feature_data !! name)) <$> names.

(** [max(1, min(3, round(prediction)))] and
    [min(0.95, max(0.60, 1 - abs(prediction - demand_score)))]. *)
Definition score_of_prediction (prediction : Q) : Z :=
  maxZ 1 (minZ 3 (py_round prediction)).

Definition confidence_of_prediction (prediction : Q) : Q :=
  let demand_score := score_of_prediction prediction in
  minQ 0.95 (maxQ 0.60 (1 - Qabs (prediction - inject_Z demand_score))).

Definition predict_smart_glasses_demand
    (g : Globals) (features : gmap string Z) : Exn + (Z * Q) :=
  match model g, scaler g with
  | Some mdl, Some scl =>
    match build_feature_data features with
    | inl _ => inl (UnboundLocalError "feature_data")
    | inr feature_data =>
      let features_df := feature_row (actual_feature_names g) feature_data in
      match transform scl features_df with
      | inl e => inl (HTTPException 500 ("Prediction error: " +:+ exn_str e))
      | inr features_scaled =>
        match predict mdl features_scaled with
        | inl e => inl (HTTPException 500 ("Prediction error: " +:+ exn_str e))
        | inr prediction =>
          inr (score_of_prediction prediction, confidence_of_prediction prediction)
        end
      end
    end
  | _, _ =>
    let total_score := sum_values features in
    let demo_score := minZ 3 (maxZ 1 (1 + total_score / 2)) in
    inr (demo_score, 0.75%Q)
  end.

(** ** Endpoint monad: exceptions plus the record of predictor calls *)

Definition Call : Type := gmap string Z.

Definition M (A : Type) : Type := list Call * (Exn + A).

Definition ret {A : Type} (a : A) : M A := ([], inr a).

Definition raise {A : Type} (e : Exn) : M A := ([], inl e).

Definition bind {A B : Type} (m : M A) (k : A -> M B) : M B :=
  match m with
  | (t, inl e) => (t, inl e)
  | (t, inr a) => let (t', r) := k a in (t ++ t', r)
  end.

(** [try: m except Exception as e: handler e] *)
Definition try_except {A : Type} (m : M A) (handler : Exn -> M A) : M A :=
  match m with
  | (t, inl e) => let (t', r) := handler e in (t ++ t', r)
  | (t, inr a) => (t, inr a)
  end.

#[local] Instance M_ret : MRet M := @ret.
#[local] Instance M_bind : MBind M := fun A B k m => bind m k.

Definition calls {A : Type} (m : M A) : list Call := fst m.
Definition outcome {A : Type} (m : M A) : Exn + A := snd m.

(** A call of the predictor from an endpoint. *)
Definition call_predictor (g : Globals) (features : gmap string Z) : M (Z * Q) :=
  ([features], predict_smart_glasses_demand g features).

(** ** [GET /health] *)

Inductive HealthResponse : Type :=
| Healthy (model_loaded test_prediction_successful demo : bool)
          (test_demand_score : Z) (test_confidence : Q)
| Unhealthy (model_loaded : bool) (error : string).

Definition all_ones : PredictionRequest :=
  {| cognition := 1; communication := 1; hearing := 1;
     mobility := 1; self_care := 1; vision := 1 |}.

Definition health_check (g : Globals) : M HealthResponse :=
  try_except
    (let test_features := features_of all_ones in
     test_prediction ← call_predictor g test_features;
     ret (Healthy (negb (demo_mode g)) true (demo_mode g)
                  (fst test_prediction)
                  (py_round_ndigits (snd test_prediction) 3)))
    (fun e => ret (Unhealthy false (exn_str e))).

(** ** [POST /predict] *)

Record InputSummary : Type := {
  total_training_areas : Z;
  vision_training_available : bool;
  mobility_training_available : bool;
  training_coverage_percentage : Q
}.

Record PredictionResponse : Type := {
  demand_score : Z;
  demand_level : string;
  confidence : Q;
  input_summary : InputSummary;
  recommendations : string
}.

Definition lift {A : Type} (r : Exn + A) : M A := ([], r).

Definition predict_demand (g : Globals) (request : PredictionRequest)
    : M PredictionResponse :=
  try_except
    (let features := features_of request in
     '(demand_score, confidence) ← call_predictor g features;
     let '(demand_level, recommendations) := get_demand_interpretation demand_score in
     vision_flag ← lift (getitem features "vision");
     mobility_flag ← lift (getitem features "mobility");
     let input_summary :=
       {| total_training_areas := sum_values features;
          vision_training_available := py_bool vision_flag;
          mobility_training_available := py_bool mobility_flag;
          training_coverage_percentage :=
            py_round_ndigits ((inject_Z (sum_values features) / 6) * 100) 1 |} in
     ret {| demand_score := demand_score;
            demand_level := demand_level;
            confidence := py_round_ndigits confidence 3;
            input_summary := input_summary;
            recommendations := recommendations |})
    (fun e =>
       match e with
       | HTTPException _ _ => raise e
       | _ => raise (HTTPException 500 ("Internal server error: " +:+ exn_str e))
       end).

(** ** [POST /predict-batch] *)

Inductive BatchEntry : Type :=
| BatchResult (index : Z) (demand_score : Z) (demand_level : string) (confidence : Q)
| BatchError (index : Z) (error : string).

Definition batch_item (g : Globals) (i : Z) (request : PredictionRequest) : M BatchEntry :=
  try_except
    (let features := features_of request in
     '(demand_score, confidence) ← call_predictor g features;
     let '(demand_level, _) := get_demand_interpretation demand_score in
     ret (BatchResult i demand_score demand_level (py_round_ndigits confidence 3)))
    (fun e => ret (BatchError i ("Prediction failed: " +:+ exn_str e))).

(** The [for i, request in enumerate(requests)] loop, appending to [results]. *)
Fixpoint batch_loop (g : Globals) (i : Z) (requests : list PredictionRequest)
    (results : list BatchEntry) : M (list BatchEntry) :=
  match requests with
  | [] => ret results
  | request :: rest =>
    entry ← batch_item g i request;
    batch_loop g (i + 1) rest (results ++ [entry])
  end.

Definition predict_batch (g : Globals) (requests : list PredictionRequest)
    : M (list BatchEntry) :=
  if 50 <? Z.of_nat (length requests) then
    raise (HTTPException 400 "Batch size cannot exceed 50 requests")
  else
    batch_loop g 0 requests [].

(** ** Request validation and the [/predict] route

    [PredictionRequest] declares each field as a required [int] with
    [ge=0, le=1] and attaches [validate_binary_values] to all six.  The web
    framework checks the body against this declaration before it calls the
    endpoint, and answers 422 itself when the check fails.  Here a body is a
    JSON object with integer members; bodies with members of any kind are
    treated further down. *)

Inductive FieldError : Type :=
| Missing (field : string)
| GreaterThanEqual (field : string) (v : Z)
| LessThanEqual (field : string) (v : Z)
| ValueError (field : string) (msg : string).

Definition validate_binary_values (v : Z) : Exn + Z :=
  if bool_decide (v ∈ [0; 1]) then inr v
  else inl (PyError "ValueError" "Value must be 0 (No) or 1 (Yes)").

(** One field: presence, then [ge=0], then [le=1], then the validator. *)
Definition validate_field (body : gmap string Z) (field : string)
    : list FieldError + Z :=
  match body !! field with
  | None => inl [Missing field]
  | Some v =>
    if v <? 0 then inl [GreaterThanEqual field v]
    else if 1 <? v then inl [LessThanEqual field v]
    else match validate_binary_values v with
         | inl e => inl [ValueError field (exn_str e)]
         | inr v' => inr v'
         end
  end.

Definition field_errors {A : Type} (r : list FieldError + A) : list FieldError :=
  match r with
  | inl errs => errs
  | inr _ => []
  end.

(** All six fields are checked and their errors collected in field order. *)
Definition validate_request (body : gmap string Z)
    : list FieldError + PredictionRequest :=
  match validate_field body "cognition", validate_field body "communication",
        validate_field body "hearing", validate_field body "mobility",
        validate_field body "self_care", validate_field body "vision" with
  | inr c, inr co, inr h, inr m, inr s, inr v =>
    inr {| cognition := c; communication := co; hearing := h;
           mobility := m; self_care := s; vision := v |}
  | rc, rco, rh, rm, rs, rv =>
    inl (field_errors rc ++ field_errors rco ++ field_errors rh ++
         field_errors rm ++ field_errors rs ++ field_errors rv)
  end.

Inductive ResponseBody : Type :=
| PredictionBody (response : PredictionResponse)
| ValidationBody (errors : list FieldError)
| DetailBody (detail : string).

Record Response : Type := {
  status : Z;
  body : ResponseBody
}.

Definition route_predict (g : Globals) (json : gmap string Z) : M Response :=
  match validate_request json with
  | inl errs => ret {| status := 422; body := ValidationBody errs |}
  | inr request =>
    try_except
      (response ← predict_demand g request;
       ret {| status := 200; body := PredictionBody response |})
      (fun e =>
         match e with
         | HTTPException status_code detail =>
           ret {| status := status_code; body := DetailBody detail |}
         | _ => ret {| status := 500; body := DetailBody "Internal Server Error" |}
         end)
  end.

(** ** Vocabulary of the specification *)

Definition clampZ (lo hi x : Z) : Z := Z.max lo (Z.min hi x).

Definition clampQ (lo hi x : Q) : Q :=
  if Qlt_le_dec x lo then lo else if Qlt_le_dec hi x then hi else x.

Definition flag_sum (request : PredictionRequest) : Z :=
  cognition request + communication request + hearing request +
  mobility request + self_care request + vision request.

Definition is_flag (v : Z) : bool := (v =? 0) || (v =? 1).

Definition binary (request : PredictionRequest) : bool :=
  is_flag (cognition request) && is_flag (communication request) &&
  is_flag (hearing request) && is_flag (mobility request) &&
  is_flag (self_care request) && is_flag (vision request).

(** The table of the fallback score by number of flags set. *)
Definition fallback_table (total : Z) : Z :=
  match total with
  | 0 | 1 => 1
  | 2 | 3 => 2
  | _ => 3
  end.

(** The confidence as the specification words it: the distance is taken to
    the rounded output before that is clamped to the score range. *)
Definition confidence_spec (r : Q) : Q :=
  clampQ 0.60 0.95 (1 - Qabs (r - inject_Z (py_round r))).

(** The six request fields. *)
Definition request_fields : list string :=
  ["cognition"; "communication"; "hearing"; "mobility"; "self_care"; "vision"]%string.

(** A body the declaration rejects: some field is absent or not 0/1. *)
Definition ill_formed (json : gmap string Z) : Prop :=
  ∃ field, field ∈ request_fields ∧
    (json !! field = None ∨ ∃ v, json !! field = Some v ∧ v ≠ 0 ∧ v ≠ 1).

(** What the batch loop records for item [i]. *)
Definition entry_of (g : Globals) (i : nat) (request : PredictionRequest) : BatchEntry :=
  match predict_smart_glasses_demand g (features_of request) with
  | inr (score, conf) =>
    BatchResult (Z.of_nat i) score (fst (get_demand_interpretation score))
                (py_round_ndigits conf 3)
  | inl e => BatchError (Z.of_nat i) ("Prediction failed: " +:+ exn_str e)
  end.

(** Sample artifacts: an identity scaler and a model with a constant output. *)
Definition identity_scaler : Scaler := {| transform := fun row => inr row |}.
Definition constant_model (r : Q) : Model := {| predict := fun _ => inr r |}.
Definition constant_globals (r : Q) : Globals :=
  {| model := Some (constant_model r); scaler := Some identity_scaler;
     actual_feature_names := fallback_feature_names |}.

(** ** Closed forms used in the statements *)

(** The [feature_data] dictionary the predictor builds for a request. *)
Definition feature_data_of (request : PredictionRequest) : gmap string Q :=
  <["assistive_tech_readiness" := ((inject_Z (flag_sum request) / 6) * 100)%Q]>
  (<["vision_mobility_score" := inject_Z (vision request + mobility request)]>
  (<["total_training_score" := inject_Z (flag_sum request)]>
  (<["Training related to Vision" := inject_Z (vision request)]>
  (<["Training related to Self-care" := inject_Z (self_care request)]>
  (<["Training related to Mobility" := inject_Z (mobility request)]>
  (<["Training related to Hearing" := inject_Z (hearing request)]>
  (<["Training related to Communication" := inject_Z (communication request)]>
  (<["Training related to Cognition" := inject_Z (cognition request)]> ∅)))))))).

(** What [predict_demand] answers when the predictor returned. *)
Definition response_of (request : PredictionRequest) (score : Z) (conf : Q)
    : PredictionResponse :=
  {| demand_score := score;
     demand_level := fst (get_demand_interpretation score);
     confidence := py_round_ndigits conf 3;
     input_summary :=
       {| total_training_areas := flag_sum request;
          vision_training_available := py_bool (vision request);
          mobility_training_available := py_bool (mobility request);
          training_coverage_percentage :=
            py_round_ndigits ((inject_Z (flag_sum request) / 6) * 100) 1 |};
     recommendations := snd (get_demand_interpretation score) |}.

(** The coverage percentage by number of flags set. *)
Definition coverage_table (total : Z) : Q :=
  match total with
  | 0 => 0
  | 1 => 16.7
  | 2 => 33.3
  | 3 => 50
  | 4 => 66.7
  | 5 => 83.3
  | _ => 100
  end.

(** ** More sample artifacts and requests *)

(** A model that rejects every row whose first cell is 1. *)
Definition picky_model : Model :=
  {| predict := fun row =>
       match row with
       | x :: _ => if Qeq_bool x 1 then inl (PyError "ValueError" "bad row")
                   else inr 2.25%Q
       | [] => inl (PyError "ValueError" "empty row")
       end |}.

Definition picky_globals : Globals :=
  {| model := Some picky_model; scaler := Some identity_scaler;
     actual_feature_names := fallback_feature_names |}.

Definition all_zeros : PredictionRequest :=
  {| cognition := 0; communication := 0; hearing := 0;
     mobility := 0; self_care := 0; vision := 0 |}.

Definition vision_only : PredictionRequest :=
  {| cognition := 0; communication := 0; hearing := 0;
     mobility := 0; self_care := 0; vision := 1 |}.

(** The body [{cognition: 2, communication: 1, hearing: 1, mobility: 0,
    self_care: 1, vision: 0}]. *)
Definition cognition_two : gmap string Z :=
  features_of {| cognition := 2; communication := 1; hearing := 1;
                 mobility := 0; self_care := 1; vision := 0 |}.

(** ** Startup: [lifespan]

    [joblib.load] is the file system's business: each of the two loads is
    given by its outcome, an exception or the unpickled object together with
    its [feature_names_in_] attribute when it has one.  The module creates
    [model] and [scaler] as [None]; [lifespan] assigns them in turn, so a
    failing load leaves the later ones as they were. *)

Record Loaded (A : Type) : Type := {
  artifact : A;
  feature_names_in_ : option (list string)
}.
Arguments artifact {A} _.
Arguments feature_names_in_ {A} _.

Definition lifespan (model0 : option Model) (scaler0 : option Scaler)
    (load_model : Exn + Loaded Model) (load_scaler : Exn + Loaded Scaler)
    : Globals :=
  match load_model with
  | inl _ =>
    {| model := model0; scaler := scaler0;
       actual_feature_names := fallback_feature_names |}
  | inr m =>
    match load_scaler with
    | inl _ =>
      {| model := Some (artifact m); scaler := scaler0;
         actual_feature_names := fallback_feature_names |}
    | inr s =>
      {| model := Some (artifact m); scaler := Some (artifact s);
         actual_feature_names :=
           match feature_names_in_ m with
           | Some names => names
           | None =>
             match feature_names_in_ s with
             | Some names => names
             | None => fallback_feature_names
             end
           end |}
    end
  end.

(** The state of a freshly started process. *)
Definition startup (load_model : Exn + Loaded Model)
    (load_scaler : Exn + Loaded Scaler) : Globals :=
  lifespan None None load_model load_scaler.

(** ** [GET /] *)

Record RootResponse : Type := {
  message : string;
  mission : string;
  version : string;
  service_status : string;
  endpoints : list (string * string)
}.

Definition root (g : Globals) : RootResponse :=
  {| message := "Smart Glasses Demand Prediction API";
     mission := "AI-powered smart glasses for the blind";
     version := "1.0.0";
     service_status :=
       match model g with
       | Some _ => "Model loaded"
       | None => "Demo mode"
       end;
     endpoints :=
       [ ("predict", "/predict"); ("predict-batch", "/predict-batch");
         ("health", "/health"); ("model-info", "/model-info");
         ("docs", "/docs") ]%string |}.

(** ** [GET /model-info]

    The endpoint probes the loaded model object for [n_estimators] and
    [coef_] and falls back on its class name; [ModelAttrs] is what that
    probing finds on the object held in [model]. *)

Record ModelAttrs : Type := {
  n_estimators : option Z;
  has_coef_ : bool;
  type_name : string
}.

Record ModelInfo : Type := {
  model_type : string;
  features : list string;
  feature_count : Z;
  target : string;
  api_inputs : list string;
  demand_levels : gmap Z string;
  info_mission : string
}.

Definition get_model_info (g : Globals) (attrs : ModelAttrs) : ModelInfo :=
  let model_type :=
    match model g with
    | None => "Demo Mode"%string
    | Some _ =>
      match n_estimators attrs with
      | Some n => "Random Forest Regressor (n_estimators=" +:+ pretty n +:+ ")"
      | None => if has_coef_ attrs then "Linear Regression"%string
                else type_name attrs
      end
    end in
  {| model_type := model_type;
     features := actual_feature_names g;
     feature_count :=
       match actual_feature_names g with
       | [] => 0
       | _ => Z.of_nat (length (actual_feature_names g))
       end;
     target := "smart_glasses_demand";
     api_inputs :=
       ["cognition"; "communication"; "hearing"; "mobility"; "self_care";
        "vision"]%string;
     demand_levels :=
       <[3 := "High Demand"%string]>
       (<[2 := "Medium Demand"%string]> (<[1 := "Low Demand"%string]> ∅));
     info_mission :=
       "Predicting demand for AI-powered smart glasses to help the blind navigate independently" |}.

(** ** Vocabulary for the further properties *)

(** The keys of [feature_data]. *)
Definition feature_data_keys : list string := fallback_feature_names.

(** An artifact file that unpickles to an object without feature names. *)
Definition plain {A : Type} (a : A) : Exn + Loaded A :=
  inr {| artifact := a; feature_names_in_ := None |}.

(** An artifact file that is not there. *)
Definition missing_file {A : Type} : Exn + Loaded A :=
  inl (PyError "FileNotFoundError" "No such file or directory").

(** Is a batch entry a result entry with these values? *)
Definition entry_matches (i : nat) (response : PredictionResponse)
    (entry : BatchEntry) : Prop :=
  entry = BatchResult (Z.of_nat i) (demand_score response)
            (demand_level response) (confidence response).

Definition is_error_entry (i : nat) (entry : BatchEntry) : Prop :=
  exists msg, entry = BatchError (Z.of_nat i) msg.

(** An error entry that names a request field and says what is wrong with
    it in the body: absent, below 0, or above 1. *)
Definition explains (json : gmap string Z) (err : FieldError) : Prop :=
  exists field, field ∈ request_fields /\
    ((err = Missing field /\ json !! field = None) \/
     (exists v, err = GreaterThanEqual field v /\ json !! field = Some v /\ v < 0) \/
     (exists v, err = LessThanEqual field v /\ json !! field = Some v /\ 1 < v)).

(** The row handed to [scaler.transform] for a request. *)
Definition scaler_input (g : Globals) (request : PredictionRequest) : list Q :=
  feature_row (actual_feature_names g) (feature_data_of request).

(** ** Bodies with members of any JSON kind

    The body of a request is what [json.loads] makes of it, so a member can
    be of any JSON kind.  A field declared [int] is filled by the validation
    library's lax conversion: an integer is taken as it is, a boolean
    becomes 0 or 1, a float without fractional part becomes that integer,
    a string goes through the library's integer parser, and anything else
    is not an integer.  The parser is the library's and is taken as the
    parameter [str_as_int].  The constraints and the validator of the
    declaration then apply to the converted integer. *)

Inductive JValue : Type :=
| JInt (z : Z)
| JBool (b : bool)
| JFloat (x : Q)
| JNonFinite
| JStr (s : string)
| JNull
| JArray
| JObject.

Definition int_of_value (str_as_int : string -> option Z) (value : JValue)
    : option Z :=
  match value with
  | JInt z => Some z
  | JBool b => Some (if b then 1 else 0)
  | JFloat x =>
    if Qeq_bool x (inject_Z (Qfloor x)) then Some (Qfloor x) else None
  | JStr s => str_as_int s
  | JNonFinite | JNull | JArray | JObject => None
  end.

Inductive BodyError : Type :=
| NotAnInteger (field : string) (value : JValue)
| Defect (err : FieldError).

(** One field: presence, conversion, then [ge=0], [le=1], the validator. *)
Definition validate_body_field (str_as_int : string -> option Z)
    (body : gmap string JValue) (field : string) : list BodyError + Z :=
  match body !! field with
  | None => inl [Defect (Missing field)]
  | Some value =>
    match int_of_value str_as_int value with
    | None => inl [NotAnInteger field value]
    | Some v =>
      if v <? 0 then inl [Defect (GreaterThanEqual field v)]
      else if 1 <? v then inl [Defect (LessThanEqual field v)]
      else match validate_binary_values v with
           | inl e => inl [Defect (ValueError field (exn_str e))]
           | inr v' => inr v'
           end
    end
  end.

Definition body_errors {A : Type} (r : list BodyError + A) : list BodyError :=
  match r with
  | inl errs => errs
  | inr _ => []
  end.

Definition validate_body (str_as_int : string -> option Z)
    (body : gmap string JValue) : list BodyError + PredictionRequest :=
  let check := validate_body_field str_as_int body in
  match check "cognition", check "communication", check "hearing",
        check "mobility", check "self_care", check "vision" with
  | inr c, inr co, inr h, inr m, inr s, inr v =>
    inr {| cognition := c; communication := co; hearing := h;
           mobility := m; self_care := s; vision := v |}
  | rc, rco, rh, rm, rs, rv =>
    inl (body_errors rc ++ body_errors rco ++ body_errors rh ++
         body_errors rm ++ body_errors rs ++ body_errors rv)
  end.

(** The answer to a request that passed validation. *)
Definition respond (g : Globals) (request : PredictionRequest) : M Response :=
  try_except
    (response ← predict_demand g request;
     ret {| status := 200; body := PredictionBody response |})
    (fun e =>
       match e with
       | HTTPException status_code detail =>
         ret {| status := status_code; body := DetailBody detail |}
       | _ => ret {| status := 500; body := DetailBody "Internal Server Error" |}
       end).

Inductive Reply : Type :=
| Unprocessable (errors : list BodyError)
| Replied (response : Response).

Definition reply_status (reply : Reply) : Z :=
  match reply with
  | Unprocessable _ => 422
  | Replied response => status response
  end.

Definition post_predict (str_as_int : string -> option Z) (g : Globals)
    (json : gmap string JValue) : M Reply :=
  match validate_body str_as_int json with
  | inl errs => ret (Unprocessable errs)
  | inr request => response ← respond g request; ret (Replied response)
  end.

(** A body in which some field is absent or is not the integer 0 or 1. *)
Definition outside_flags (json : gmap string JValue) : Prop :=
  exists field, field ∈ request_fields /\
    (json !! field = None \/
     exists value, json !! field = Some value /\
                   value <> JInt 0 /\ value <> JInt 1).

(** A body in which some field is absent or does not convert to 0 or 1. *)
Definition unconvertible (str_as_int : string -> option Z)
    (json : gmap string JValue) : Prop :=
  exists field, field ∈ request_fields /\
    (json !! field = None \/
     exists value, json !! field = Some value /\
                   int_of_value str_as_int value <> Some 0 /\
                   int_of_value str_as_int value <> Some 1).

(** The body of a request with integer members, and two sample bodies:
    [cognition] sent as [true], and [cognition] sent as a string. *)
Definition body_of (request : PredictionRequest) : gmap string JValue :=
  JInt <$> features_of request.

Definition cognition_true : gmap string JValue :=
  <["cognition" := JBool true]> (body_of all_ones).

Definition cognition_string (s : string) : gmap string JValue :=
  <["cognition" := JStr s]> (body_of all_ones).

(** A parser that accepts nothing. *)
Definition no_strings (s : string) : option Z := None.

(** * Properties *)

(** ** Builtins *)

Lemma maxZ_max a b : maxZ a b = Z.max a b.
Proof. unfold maxZ. destruct (Z.ltb_spec a b); lia. Qed.

Lemma minZ_min a b : minZ a b = Z.min a b.
Proof. unfold minZ. destruct (Z.ltb_spec b a); lia. Qed.

Lemma score_of_prediction_clamp r :
  score_of_prediction r = clampZ 1 3 (py_round r).
Proof. unfold score_of_prediction, clampZ. now rewrite maxZ_max, minZ_min. Qed.

Lemma clampZ_range lo hi x : lo <= hi -> lo <= clampZ lo hi x <= hi.
Proof. unfold clampZ. lia. Qed.

Lemma clampZ_id lo hi x : lo <= x <= hi -> clampZ lo hi x = x.
Proof. unfold clampZ. lia. Qed.

Lemma clampZ_mono lo hi x y : x <= y -> clampZ lo hi x <= clampZ lo hi y.
Proof. unfold clampZ. lia. Qed.

Lemma min_max_clampQ lo hi x :
  (lo <= hi)%Q -> (minQ hi (maxQ lo x) == clampQ lo hi x)%Q.
Proof.
  intros Hlh. unfold minQ, maxQ, clampQ.
  destruct (Qlt_le_dec lo x), (Qlt_le_dec x lo);
    repeat (match goal with |- context [Qlt_le_dec ?a ?b] =>
                              destruct (Qlt_le_dec a b) end); lra.
Qed.

Lemma clampQ_range lo hi x : (lo <= hi)%Q -> (lo <= clampQ lo hi x <= hi)%Q.
Proof.
  intros Hlh. unfold clampQ.
  destruct (Qlt_le_dec x lo); [lra |].
  destruct (Qlt_le_dec hi x); lra.
Qed.

Lemma clampQ_comp lo hi x y : (x == y)%Q -> (clampQ lo hi x == clampQ lo hi y)%Q.
Proof.
  intros Hxy. unfold clampQ.
  destruct (Qlt_le_dec x lo), (Qlt_le_dec y lo); try lra;
    destruct (Qlt_le_dec hi x), (Qlt_le_dec hi y); lra.
Qed.

(** [round] does not depend on the representation of its argument. *)
Lemma py_round_comp x y : (x == y)%Q -> py_round x = py_round y.
Proof.
  intros Hxy. unfold py_round.
  assert (Hf : Qfloor x = Qfloor y) by now apply Qfloor_comp.
  rewrite Hf.
  assert (Hc : (x - inject_Z (Qfloor y) ?= 1 # 2)%Q
               = (y - inject_Z (Qfloor y) ?= 1 # 2)%Q).
  { apply Qcompare_comp; [now rewrite Hxy | reflexivity]. }
  now rewrite Hc.
Qed.

Lemma py_round_ndigits_comp x y n :
  (x == y)%Q -> py_round_ndigits x n = py_round_ndigits y n.
Proof.
  intros Hxy. unfold py_round_ndigits.
  set (p := inject_Z (10 ^ Z.of_nat n)).
  assert (Hp : (x * p == y * p)%Q) by now rewrite Hxy.
  now rewrite (py_round_comp _ _ Hp).
Qed.

(** ** The features dictionary of a request *)

Lemma map_to_list_features_of request :
  map_to_list (features_of request) =
  [("self_care", self_care request); ("cognition", cognition request);
   ("communication", communication request); ("mobility", mobility request);
   ("vision", vision request); ("hearing", hearing request)]%string.
Proof. reflexivity. Qed.

Lemma sum_values_features_of request :
  sum_values (features_of request) = flag_sum request.
Proof.
  unfold sum_values, flag_sum. rewrite map_to_list_features_of. simpl. lia.
Qed.

Lemma is_flag_range v : is_flag v = true -> 0 <= v <= 1.
Proof. unfold is_flag. lia. Qed.

Lemma binary_flags request :
  binary request = true ->
  0 <= cognition request <= 1 /\ 0 <= communication request <= 1 /\
  0 <= hearing request <= 1 /\ 0 <= mobility request <= 1 /\
  0 <= self_care request <= 1 /\ 0 <= vision request <= 1.
Proof.
  unfold binary. rewrite !andb_true_iff.
  intros [[[[[Hc Hco] Hh] Hm] Hs] Hv].
  repeat split; now apply is_flag_range.
Qed.

Lemma binary_flag_sum request :
  binary request = true -> 0 <= flag_sum request <= 6.
Proof. intros H. apply binary_flags in H. unfold flag_sum. lia. Qed.

Lemma engineer_features_of request :
  engineer (features_of request) =
  inr {| total_training_score := flag_sum request;
         vision_mobility_score := vision request + mobility request;
         assistive_tech_readiness := (inject_Z (flag_sum request) / 6) * 100 |}.
Proof. unfold engineer. now rewrite sum_values_features_of. Qed.

Lemma build_feature_data_features_of request :
  build_feature_data (features_of request) = inr (feature_data_of request).
Proof. unfold build_feature_data. now rewrite engineer_features_of. Qed.

(** ** The fallback branch *)

Lemma demo_mode_true g :
  demo_mode g = true <-> model g = None \/ scaler g = None.
Proof.
  unfold demo_mode. destruct (model g), (scaler g); split; intros H;
    try reflexivity; try discriminate; auto; destruct H; discriminate.
Qed.

Lemma predict_fallback g features :
  demo_mode g = true ->
  predict_smart_glasses_demand g features =
  inr (clampZ 1 3 (1 + sum_values features / 2), 0.75%Q).
Proof.
  unfold demo_mode, predict_smart_glasses_demand, clampZ.
  rewrite minZ_min, maxZ_max.
  destruct (model g), (scaler g); intros H; try discriminate;
    do 2 f_equal; lia.
Qed.

Lemma predict_model_mode g mdl scl features feature_data features_scaled prediction :
  model g = Some mdl -> scaler g = Some scl ->
  build_feature_data features = inr feature_data ->
  transform scl (feature_row (actual_feature_names g) feature_data)
    = inr features_scaled ->
  predict mdl features_scaled = inr prediction ->
  predict_smart_glasses_demand g features =
  inr (score_of_prediction prediction, confidence_of_prediction prediction).
Proof.
  intros Hm Hs Hfd Ht Hp. unfold predict_smart_glasses_demand.
  now rewrite Hm, Hs, Hfd, Ht, Hp.
Qed.

(** Whatever the mode and the dictionary, a returned score is 1, 2 or 3. *)
Lemma predict_score_range g features score conf :
  predict_smart_glasses_demand g features = inr (score, conf) ->
  1 <= score <= 3.
Proof.
  unfold predict_smart_glasses_demand.
  destruct (model g) as [mdl|], (scaler g) as [scl|].
  - destruct (build_feature_data features) as [e|fd]; [discriminate |].
    destruct (transform scl _) as [e|row]; [discriminate |].
    destruct (predict mdl row) as [e|r]; [discriminate |].
    intros [= <- _]. rewrite score_of_prediction_clamp.
    apply clampZ_range. lia.
  - intros [= <- _]. rewrite minZ_min, maxZ_max. lia.
  - intros [= <- _]. rewrite minZ_min, maxZ_max. lia.
  - intros [= <- _]. rewrite minZ_min, maxZ_max. lia.
Qed.

(** C2. In fallback mode (model or scaler not loaded) the predictor returns,
    for every six-flag request, the score [clamp(1 + floor(sum/2), 1, 3)]
    with confidence exactly 0.75; since the sum of six flags lies in 0..6
    this is the table 0→1, 1→1, 2→2, 3→2, 4→3, 5→3, 6→3. *)
Theorem fallback_prediction g request :
  demo_mode g = true ->
  binary request = true ->
  predict_smart_glasses_demand g (features_of request)
    = inr (clampZ 1 3 (1 + flag_sum request / 2), 0.75%Q) /\
  0 <= flag_sum request <= 6 /\
  clampZ 1 3 (1 + flag_sum request / 2) = fallback_table (flag_sum request).
Proof.
  intros Hdemo Hbin.
  rewrite (predict_fallback g _ Hdemo), sum_values_features_of.
  pose proof (binary_flag_sum request Hbin) as Hrange.
  split; [reflexivity |]. split; [exact Hrange |].
  assert (Hcases : flag_sum request = 0 \/ flag_sum request = 1 \/
                   flag_sum request = 2 \/ flag_sum request = 3 \/
                   flag_sum request = 4 \/ flag_sum request = 5 \/
                   flag_sum request = 6) by lia.
  destruct Hcases as [-> | [-> | [-> | [-> | [-> | [-> | ->]]]]]]; reflexivity.
Qed.

Lemma fallback_prediction_witness :
  predict_smart_glasses_demand demo_globals (features_of all_ones)
    = inr (clampZ 1 3 (1 + flag_sum all_ones / 2), 0.75%Q) /\
  0 <= flag_sum all_ones <= 6 /\
  clampZ 1 3 (1 + flag_sum all_ones / 2) = fallback_table (flag_sum all_ones).
Proof. apply (fallback_prediction demo_globals all_ones); reflexivity. Defined.

(** The seven rows of the fallback table, run through the predictor. *)
Example fallback_rows :
  let run c co h m s v :=
    predict_smart_glasses_demand demo_globals
      (features_of {| cognition := c; communication := co; hearing := h;
                      mobility := m; self_care := s; vision := v |}) in
  run 0 0 0 0 0 0 = inr (1, 0.75%Q) /\ run 0 0 1 0 0 0 = inr (1, 0.75%Q) /\
  run 1 0 0 0 0 1 = inr (2, 0.75%Q) /\ run 0 1 1 1 0 0 = inr (2, 0.75%Q) /\
  run 1 1 0 1 1 0 = inr (3, 0.75%Q) /\ run 1 1 1 0 1 1 = inr (3, 0.75%Q) /\
  run 1 1 1 1 1 1 = inr (3, 0.75%Q).
Proof. repeat split; reflexivity. Qed.

(** C10. The fallback score is monotone in the flags: raising flags never
    lowers it. *)
Theorem fallback_monotone g request1 request2 :
  demo_mode g = true ->
  cognition request1 <= cognition request2 ->
  communication request1 <= communication request2 ->
  hearing request1 <= hearing request2 ->
  mobility request1 <= mobility request2 ->
  self_care request1 <= self_care request2 ->
  vision request1 <= vision request2 ->
  exists score1 score2,
    predict_smart_glasses_demand g (features_of request1) = inr (score1, 0.75%Q) /\
    predict_smart_glasses_demand g (features_of request2) = inr (score2, 0.75%Q) /\
    score1 <= score2.
Proof.
  intros Hdemo Hc Hco Hh Hm Hs Hv.
  rewrite !(predict_fallback g _ Hdemo), !sum_values_features_of.
  eexists _, _. split; [reflexivity |]. split; [reflexivity |].
  apply clampZ_mono. unfold flag_sum.
  apply Z.add_le_mono_l, Z.div_le_mono; lia.
Qed.

Lemma fallback_monotone_witness :
  exists score1 score2,
    predict_smart_glasses_demand demo_globals (features_of vision_only)
      = inr (score1, 0.75%Q) /\
    predict_smart_glasses_demand demo_globals (features_of all_ones)
      = inr (score2, 0.75%Q) /\
    score1 <= score2.
Proof.
  apply (fallback_monotone demo_globals vision_only all_ones);
    [reflexivity | simpl; lia ..].
Defined.

(** C9. The interpretation lookup is total on the integers, and every score
    other than 1 and 2 (0 and the negatives included) falls in the final
    [else] branch, which is the High one. *)
Theorem interpretation_catch_all score :
  score <> 1 -> score <> 2 ->
  get_demand_interpretation score =
  ("High",
   "High demand potential! Prioritize manufacturing and distribution in this region.")%string.
Proof.
  intros H1 H2. unfold get_demand_interpretation.
  destruct (Z.eqb_spec score 1); [contradiction |].
  destruct (Z.eqb_spec score 2); [contradiction | reflexivity].
Qed.

Lemma interpretation_catch_all_witness :
  get_demand_interpretation (-7) =
  ("High",
   "High demand potential! Prioritize manufacturing and distribution in this region.")%string.
Proof. apply (interpretation_catch_all (-7)); lia. Defined.

(** ** The model branch *)

Lemma confidence_of_prediction_clamp r :
  (confidence_of_prediction r ==
   clampQ 0.60 0.95 (1 - Qabs (r - inject_Z (clampZ 1 3 (py_round r)))))%Q.
Proof.
  unfold confidence_of_prediction. rewrite score_of_prediction_clamp.
  apply min_max_clampQ. lra.
Qed.

(** C1 (amended). In model mode the confidence is
    [clamp(1 - |r - s|, 0.60, 0.95)] where [s] is the returned score, that
    is, [round(r)] after clamping to 1..3.  It lies in [0.60, 0.95], and it
    is the value [clamp(1 - |r - round(r)|, 0.60, 0.95)] whenever [round(r)]
    is itself within 1..3. *)
Theorem model_confidence g mdl scl features feature_data features_scaled r :
  model g = Some mdl -> scaler g = Some scl ->
  build_feature_data features = inr feature_data ->
  transform scl (feature_row (actual_feature_names g) feature_data)
    = inr features_scaled ->
  predict mdl features_scaled = inr r ->
  exists conf,
    predict_smart_glasses_demand g features
      = inr (clampZ 1 3 (py_round r), conf) /\
    (conf == clampQ 0.60 0.95
               (1 - Qabs (r - inject_Z (clampZ 1 3 (py_round r)))))%Q /\
    (0.60 <= conf <= 0.95)%Q /\
    (1 <= py_round r <= 3 -> (conf == confidence_spec r)%Q).
Proof.
  intros Hm Hs Hfd Ht Hp.
  exists (confidence_of_prediction r).
  rewrite (predict_model_mode _ _ _ _ _ _ _ Hm Hs Hfd Ht Hp),
    score_of_prediction_clamp.
  pose proof (confidence_of_prediction_clamp r) as Hc.
  split; [reflexivity |]. split; [exact Hc |]. split.
  - rewrite Hc. apply clampQ_range. lra.
  - intros Hin. rewrite Hc. unfold confidence_spec.
    now rewrite clampZ_id.
Qed.

Lemma model_confidence_witness :
  exists conf,
    predict_smart_glasses_demand (constant_globals 2.25) (features_of all_ones)
      = inr (clampZ 1 3 (py_round 2.25), conf) /\
    (conf == clampQ 0.60 0.95
               (1 - Qabs (2.25 - inject_Z (clampZ 1 3 (py_round 2.25)))))%Q /\
    (0.60 <= conf <= 0.95)%Q /\
    (1 <= py_round 2.25 <= 3 -> (conf == confidence_spec 2.25)%Q).
Proof.
  apply (model_confidence (constant_globals 2.25) (constant_model 2.25)
           identity_scaler (features_of all_ones) (feature_data_of all_ones)
           (feature_row fallback_feature_names (feature_data_of all_ones)));
    reflexivity.
Defined.

(** C1, as stated, fails: a model output of 4 rounds to 4, so the stated
    formula gives 0.95, while the code measures the distance to the clamped
    score 3 and returns 0.60. *)
Lemma confidence_spec_counterexample :
  exists conf,
    predict_smart_glasses_demand (constant_globals 4) (features_of all_ones)
      = inr (3, conf) /\
    (conf == 0.60)%Q /\ (confidence_spec 4 == 0.95)%Q /\
    ~ (conf == confidence_spec 4)%Q.
Proof.
  eexists. split; [vm_compute; reflexivity |].
  split; [vm_compute; reflexivity |].
  split; [vm_compute; reflexivity |].
  vm_compute. discriminate.
Qed.

(** The row the scaler receives for a request under the nine training
    columns: the six flags, then the three engineered features. *)
Lemma feature_row_of_request request :
  feature_row fallback_feature_names (feature_data_of request) =
  [ inject_Z (cognition request); inject_Z (communication request);
    inject_Z (hearing request); inject_Z (mobility request);
    inject_Z (self_care request); inject_Z (vision request);
    inject_Z (flag_sum request);
    inject_Z (vision request + mobility request);
    ((inject_Z (flag_sum request) / 6) * 100)%Q ].
Proof. reflexivity. Qed.

(** C5. For a request with six 0/1 flags the predictor's engineered features
    are: [total_training_score], the sum of the six flags, in 0..6;
    [vision_mobility_score], vision plus mobility, in 0..2;
    [assistive_tech_readiness], the total divided by 6 times 100, in
    0..100.  They are the last three cells of the row given to the scaler. *)
Theorem engineered_features request :
  binary request = true ->
  exists eng feature_data,
    engineer (features_of request) = inr eng /\
    build_feature_data (features_of request) = inr feature_data /\
    total_training_score eng = flag_sum request /\
    0 <= total_training_score eng <= 6 /\
    vision_mobility_score eng = vision request + mobility request /\
    0 <= vision_mobility_score eng <= 2 /\
    (assistive_tech_readiness eng
       == inject_Z (total_training_score eng) / 6 * 100)%Q /\
    (0 <= assistive_tech_readiness eng <= 100)%Q /\
    drop 6 (feature_row fallback_feature_names feature_data) =
      [ inject_Z (total_training_score eng);
        inject_Z (vision_mobility_score eng);
        assistive_tech_readiness eng ].
Proof.
  intros Hbin.
  pose proof (binary_flags request Hbin) as (Hc & Hco & Hh & Hm & Hs & Hv).
  pose proof (binary_flag_sum request Hbin) as Hsum.
  eexists _, (feature_data_of request).
  split; [apply engineer_features_of |].
  split; [apply build_feature_data_features_of |].
  cbn [total_training_score vision_mobility_score assistive_tech_readiness].
  split; [reflexivity |]. split; [exact Hsum |].
  split; [reflexivity |]. split; [lia |].
  split; [reflexivity |]. split; [| reflexivity].
  assert (H0 : (inject_Z 0 <= inject_Z (flag_sum request))%Q)
    by (rewrite <- Zle_Qle; lia).
  assert (H6 : (inject_Z (flag_sum request) <= inject_Z 6)%Q)
    by (rewrite <- Zle_Qle; lia).
  change (inject_Z 0) with 0%Q in H0. change (inject_Z 6) with 6%Q in H6.
  set (t := inject_Z (flag_sum request)) in *.
  clearbody t.
  assert (Heq : (t / 6 * 100 == t * (50 # 3))%Q) by field.
  rewrite Heq. split; lra.
Qed.

Lemma engineered_features_witness :
  exists eng feature_data,
    engineer (features_of all_ones) = inr eng /\
    build_feature_data (features_of all_ones) = inr feature_data /\
    total_training_score eng = flag_sum all_ones /\
    0 <= total_training_score eng <= 6 /\
    vision_mobility_score eng = vision all_ones + mobility all_ones /\
    0 <= vision_mobility_score eng <= 2 /\
    (assistive_tech_readiness eng
       == inject_Z (total_training_score eng) / 6 * 100)%Q /\
    (0 <= assistive_tech_readiness eng <= 100)%Q /\
    drop 6 (feature_row fallback_feature_names feature_data) =
      [ inject_Z (total_training_score eng);
        inject_Z (vision_mobility_score eng);
        assistive_tech_readiness eng ].
Proof. apply (engineered_features all_ones). reflexivity. Defined.

(** ** [POST /predict] *)

Lemma predict_demand_unfold g request :
  predict_demand g request =
  ([features_of request],
   match predict_smart_glasses_demand g (features_of request) with
   | inr (score, conf) => inr (response_of request score conf)
   | inl (HTTPException status_code detail) =>
     inl (HTTPException status_code detail)
   | inl e => inl (HTTPException 500 ("Internal server error: " +:+ exn_str e))
   end).
Proof.
  unfold predict_demand, call_predictor, try_except, mbind, M_bind, bind.
  destruct (predict_smart_glasses_demand g (features_of request))
    as [[status_code detail | cls msg] | [score conf]]; try reflexivity.
  unfold response_of. rewrite <- sum_values_features_of.
  destruct (get_demand_interpretation score) as [level rec]. reflexivity.
Qed.

(** The predictor fails on a request only in model mode, and then with a
    500-class [HTTPException]. *)
Lemma predict_failure g request e :
  predict_smart_glasses_demand g (features_of request) = inl e ->
  demo_mode g = false /\ exists detail, e = HTTPException 500 detail.
Proof.
  unfold predict_smart_glasses_demand, demo_mode.
  rewrite build_feature_data_features_of.
  destruct (model g) as [mdl|], (scaler g) as [scl|]; try discriminate.
  destruct (transform scl _) as [e1|row].
  - intros [= <-]. eauto.
  - destruct (predict mdl row) as [e2|r]; [| discriminate].
    intros [= <-]. eauto.
Qed.

Lemma py_bool_flag v : 0 <= v <= 1 -> (py_bool v = true <-> v = 1).
Proof. unfold py_bool. intros H. destruct (Z.eqb_spec v 0); simpl; split; intros; try lia; try reflexivity; discriminate. Qed.

(** C6. For every request with six 0/1 flags, a [/predict] response carries
    [training_coverage_percentage = round(100 * sum(flags) / 6, 1)], the
    number of flags set, and the vision and mobility flags as booleans.  The
    endpoint answers with a response unless the loaded model pipeline
    raised, which gives a 500-class error. *)
Theorem predict_input_summary g request :
  binary request = true ->
  match outcome (predict_demand g request) with
  | inr response =>
    let summary := input_summary response in
    training_coverage_percentage summary
      = py_round_ndigits (100 * inject_Z (flag_sum request) / 6) 1 /\
    (training_coverage_percentage summary
      == coverage_table (flag_sum request))%Q /\
    total_training_areas summary = flag_sum request /\
    (vision_training_available summary = true <-> vision request = 1) /\
    (mobility_training_available summary = true <-> mobility request = 1)
  | inl e => demo_mode g = false /\ exists detail, e = HTTPException 500 detail
  end.
Proof.
  intros Hbin. rewrite predict_demand_unfold. unfold outcome. cbn [snd].
  destruct (predict_smart_glasses_demand g (features_of request))
    as [e | [score conf]] eqn:Hp.
  - destruct (predict_failure g request e Hp) as [Hd [detail ->]]. eauto.
  - pose proof (binary_flags request Hbin) as (Hc & Hco & Hh & Hm & Hs & Hv).
    pose proof (binary_flag_sum request Hbin) as Hsum.
    cbn [input_summary response_of training_coverage_percentage
         total_training_areas vision_training_available
         mobility_training_available].
    split; [apply py_round_ndigits_comp; field |].
    split; [| split; [reflexivity | split; now apply py_bool_flag]].
    assert (Hcases : flag_sum request = 0 \/ flag_sum request = 1 \/
                     flag_sum request = 2 \/ flag_sum request = 3 \/
                     flag_sum request = 4 \/ flag_sum request = 5 \/
                     flag_sum request = 6) by lia.
    destruct Hcases as [-> | [-> | [-> | [-> | [-> | [-> | ->]]]]]];
      vm_compute; reflexivity.
Qed.

Lemma predict_input_summary_witness :
  match outcome (predict_demand demo_globals vision_only) with
  | inr response =>
    let summary := input_summary response in
    training_coverage_percentage summary
      = py_round_ndigits (100 * inject_Z (flag_sum vision_only) / 6) 1 /\
    (training_coverage_percentage summary
      == coverage_table (flag_sum vision_only))%Q /\
    total_training_areas summary = flag_sum vision_only /\
    (vision_training_available summary = true <-> vision vision_only = 1) /\
    (mobility_training_available summary = true <-> mobility vision_only = 1)
  | inl e => demo_mode demo_globals = false /\ exists detail, e = HTTPException 500 detail
  end.
Proof. apply (predict_input_summary demo_globals vision_only). reflexivity. Defined.

(** In fallback mode [/predict] always answers. *)
Lemma predict_demand_fallback g request :
  demo_mode g = true ->
  predict_demand g request =
  ([features_of request],
   inr (response_of request (clampZ 1 3 (1 + flag_sum request / 2)) 0.75)).
Proof.
  intros Hd. rewrite predict_demand_unfold, (predict_fallback g _ Hd).
  now rewrite sum_values_features_of.
Qed.

(** ** [POST /predict-batch] *)

Lemma batch_item_unfold g i request :
  batch_item g (Z.of_nat i) request =
  ([features_of request], inr (entry_of g i request)).
Proof.
  unfold batch_item, entry_of, call_predictor, try_except, mbind, M_bind, bind.
  destruct (predict_smart_glasses_demand g (features_of request))
    as [e | [score conf]]; [reflexivity |].
  destruct (get_demand_interpretation score) as [level rec]. reflexivity.
Qed.

(** Invariant of the loop: started at index [i] with [results] collected so
    far, it appends one entry per remaining request, each computed from that
    request and its own index, and calls the predictor once per request. *)
Lemma batch_loop_unfold g requests : forall i results,
  batch_loop g (Z.of_nat i) requests results =
  (features_of <$> requests,
   inr (results ++ imap (fun k => entry_of g (i + k)) requests)).
Proof.
  induction requests as [| request rest IH]; intros i results.
  - simpl. unfold ret. now rewrite app_nil_r.
  - cbn [batch_loop]. unfold mbind, M_bind, bind.
    rewrite batch_item_unfold.
    replace (Z.of_nat i + 1) with (Z.of_nat (S i)) by lia.
    rewrite IH. cbn [imap fmap list_fmap app].
    rewrite <- app_assoc. cbn [app].
    replace (i + 0)%nat with i by lia.
    do 4 f_equal. apply imap_ext. intros k x _. simpl.
    f_equal. lia.
Qed.

Lemma predict_batch_rejected g requests :
  (50 < length requests)%nat ->
  predict_batch g requests =
  ([], inl (HTTPException 400 "Batch size cannot exceed 50 requests")).
Proof.
  intros Hlen. unfold predict_batch.
  destruct (Z.ltb_spec 50 (Z.of_nat (length requests))); [reflexivity | lia].
Qed.

Lemma predict_batch_accepted g requests :
  (length requests <= 50)%nat ->
  predict_batch g requests =
  (features_of <$> requests, inr (imap (entry_of g) requests)).
Proof.
  intros Hlen. unfold predict_batch.
  destruct (Z.ltb_spec 50 (Z.of_nat (length requests))); [lia |].
  apply (batch_loop_unfold g requests 0%nat []).
Qed.

(** C4. A batch of more than 50 items is rejected with status 400 and the
    predictor is not called.  A batch of at most 50 items is answered with
    exactly one entry per item, in input order; entry [i] is computed from
    item [i] alone - a result when its prediction returned, an error entry
    when it raised - and the predictor is called once per item, in order. *)
Theorem predict_batch_entries g requests :
  ((50 < length requests)%nat ->
     predict_batch g requests =
     ([], inl (HTTPException 400 "Batch size cannot exceed 50 requests"))) /\
  ((length requests <= 50)%nat ->
     exists results,
       predict_batch g requests = (features_of <$> requests, inr results) /\
       length results = length requests /\
       forall (i : nat) request,
         requests !! i = Some request ->
         results !! i = Some (entry_of g i request)).
Proof.
  split; intros Hlen.
  - now apply predict_batch_rejected.
  - exists (imap (entry_of g) requests).
    split; [now apply predict_batch_accepted |].
    split; [apply length_imap |].
    intros i request Hi. rewrite list_lookup_imap, Hi. reflexivity.
Qed.

(** A failing item becomes an error entry at its index; its neighbours are
    answered as if it were not there. *)
Example batch_isolates_failure :
  outcome (predict_batch picky_globals [all_zeros; all_ones; vision_only]) =
  inr [ BatchResult 0 2 "Medium" (py_round_ndigits 0.75 3);
        BatchError 1 "Prediction failed: 500: Prediction error: bad row";
        BatchResult 2 2 "Medium" (py_round_ndigits 0.75 3) ] /\
  outcome (predict_batch picky_globals [all_zeros; vision_only]) =
  inr [ BatchResult 0 2 "Medium" (py_round_ndigits 0.75 3);
        BatchResult 1 2 "Medium" (py_round_ndigits 0.75 3) ].
Proof. split; vm_compute; reflexivity. Qed.

Example batch_of_50_and_51 :
  (exists results,
     predict_batch demo_globals (replicate 50 all_ones)
       = (replicate 50 (features_of all_ones), inr results) /\
     length results = 50%nat) /\
  predict_batch demo_globals (replicate 51 all_ones) =
  ([], inl (HTTPException 400 "Batch size cannot exceed 50 requests")).
Proof.
  split.
  - eexists. rewrite predict_batch_accepted by (rewrite length_replicate; lia).
    rewrite fmap_replicate. split; [reflexivity |].
    now rewrite length_imap, length_replicate.
  - apply predict_batch_rejected. rewrite length_replicate. lia.
Qed.

Lemma predict_batch_entries_witness :
  predict_batch picky_globals (replicate 51 all_zeros) =
  ([], inl (HTTPException 400 "Batch size cannot exceed 50 requests")) /\
  exists results,
    predict_batch picky_globals [all_zeros; all_ones]
      = (features_of <$> [all_zeros; all_ones], inr results) /\
    length results = length [all_zeros; all_ones] /\
    forall (i : nat) request,
      [all_zeros; all_ones] !! i = Some request ->
      results !! i = Some (entry_of picky_globals i request).
Proof.
  split.
  - apply (predict_batch_entries picky_globals (replicate 51 all_zeros)).
    vm_compute. lia.
  - apply (predict_batch_entries picky_globals [all_zeros; all_ones]).
    simpl. lia.
Defined.

(** ** Score range and interpretation *)

Lemma predict_failure_any g features e :
  predict_smart_glasses_demand g features = inl e -> demo_mode g = false.
Proof.
  unfold predict_smart_glasses_demand, demo_mode.
  destruct (model g), (scaler g); try discriminate. reflexivity.
Qed.

(** C3. In either mode and on every input, a score the predictor returns is
    1, 2 or 3 (it fails to return only when the loaded model pipeline
    raises); the level and recommendation of a [/predict] response, and the
    level of a batch entry, are [get_demand_interpretation] of that score
    and of nothing else, which maps 1 to Low, 2 to Medium and 3 to High,
    each with one fixed recommendation. *)
Theorem demand_score_interpretation g :
  (forall features,
     match predict_smart_glasses_demand g features with
     | inr (score, _) => score = 1 \/ score = 2 \/ score = 3
     | inl _ => demo_mode g = false
     end) /\
  (forall request,
     match outcome (predict_demand g request) with
     | inr response =>
       (demand_score response = 1 \/ demand_score response = 2 \/
        demand_score response = 3) /\
       (demand_level response, recommendations response)
         = get_demand_interpretation (demand_score response)
     | inl _ => demo_mode g = false
     end) /\
  (forall i request,
     match outcome (batch_item g (Z.of_nat i) request) with
     | inr (BatchResult _ score level _) =>
       (score = 1 \/ score = 2 \/ score = 3) /\
       level = fst (get_demand_interpretation score)
     | inr (BatchError _ _) => demo_mode g = false
     | inl _ => False
     end) /\
  get_demand_interpretation 1 =
    ("Low",
     "Market shows low demand. Focus on awareness and education programs.")%string /\
  get_demand_interpretation 2 =
    ("Medium",
     "Moderate demand expected. Consider targeted marketing and partnerships.")%string /\
  get_demand_interpretation 3 =
    ("High",
     "High demand potential! Prioritize manufacturing and distribution in this region.")%string.
Proof.
  assert (Hscore : forall features score conf,
            predict_smart_glasses_demand g features = inr (score, conf) ->
            score = 1 \/ score = 2 \/ score = 3).
  { intros features score conf H. apply predict_score_range in H. lia. }
  split; [| split; [| split; [| repeat split]]].
  - intros features.
    destruct (predict_smart_glasses_demand g features) as [e | [score conf]] eqn:Hp;
      [now apply predict_failure_any in Hp | eauto].
  - intros request. rewrite predict_demand_unfold. unfold outcome. cbn [snd].
    destruct (predict_smart_glasses_demand g (features_of request))
      as [e | [score conf]] eqn:Hp.
    + apply predict_failure_any in Hp. now destruct e.
    + cbn [demand_score demand_level recommendations response_of].
      split; [eauto |]. now destruct (get_demand_interpretation score).
  - intros i request. rewrite batch_item_unfold. unfold outcome, entry_of.
    cbn [snd].
    destruct (predict_smart_glasses_demand g (features_of request))
      as [e | [score conf]] eqn:Hp;
      [now apply predict_failure_any in Hp | eauto].
Qed.

(** ** [GET /health] *)

Lemma health_check_unfold g :
  health_check g =
  ([features_of all_ones],
   inr match predict_smart_glasses_demand g (features_of all_ones) with
       | inr (score, conf) =>
         Healthy (negb (demo_mode g)) true (demo_mode g) score
                 (py_round_ndigits conf 3)
       | inl e => Unhealthy false (exn_str e)
       end).
Proof.
  unfold health_check, call_predictor, try_except, mbind, M_bind, bind.
  destruct (predict_smart_glasses_demand g (features_of all_ones))
    as [e | [score conf]]; reflexivity.
Qed.

(** C8. [/health] never raises, whatever is loaded: it makes exactly one
    predictor call, on the request with all six flags 1, and answers.  When
    the model or the scaler is absent the answer is the healthy one with
    [demo_mode = true] and [model_loaded = false], and its self-test result
    is the fallback prediction for six flags: score 3, confidence 0.75. *)
Theorem health_check_never_raises g :
  (exists response,
     health_check g = ([features_of all_ones], inr response)) /\
  (model g = None \/ scaler g = None ->
   exists conf,
     health_check g =
       ([features_of all_ones], inr (Healthy false true true 3 conf)) /\
     (conf == 0.75)%Q).
Proof.
  rewrite health_check_unfold. split; [eauto |].
  intros Habsent. apply demo_mode_true in Habsent.
  rewrite (predict_fallback g _ Habsent), Habsent.
  eexists. split; [reflexivity |]. vm_compute. reflexivity.
Qed.

Lemma health_check_never_raises_witness :
  exists conf,
    health_check demo_globals =
      ([features_of all_ones], inr (Healthy false true true 3 conf)) /\
    (conf == 0.75)%Q.
Proof.
  apply (health_check_never_raises demo_globals). left. reflexivity.
Defined.

(** With artifacts loaded whose model raises, the self-test fails and
    [/health] still answers, with the unhealthy dictionary. *)
Example health_check_unhealthy :
  health_check picky_globals =
  ([features_of all_ones],
   inr (Unhealthy false "500: Prediction error: bad row")).
Proof. reflexivity. Qed.

(** ** Validation *)

Lemma validate_field_bad json field :
  json !! field = None \/ (exists v, json !! field = Some v /\ v <> 0 /\ v <> 1) ->
  exists err, validate_field json field = inl [err].
Proof.
  unfold validate_field. intros [-> | (v & -> & Hv0 & Hv1)]; [eauto |].
  destruct (Z.ltb_spec v 0); [eauto |].
  destruct (Z.ltb_spec 1 v); [eauto | lia].
Qed.

Lemma validate_field_good json field v :
  validate_field json field = inr v ->
  json !! field = Some v /\ (v = 0 \/ v = 1).
Proof.
  unfold validate_field, validate_binary_values.
  destruct (json !! field) as [w|]; [| discriminate].
  destruct (Z.ltb_spec w 0); [discriminate |].
  destruct (Z.ltb_spec 1 w); [discriminate |].
  case_bool_decide; [| discriminate].
  intros [= ->]. split; [reflexivity | lia].
Qed.

(** A request is built only when every field passes. *)
Lemma validate_request_ok json request :
  validate_request json = inr request ->
  validate_field json "cognition" = inr (cognition request) /\
  validate_field json "communication" = inr (communication request) /\
  validate_field json "hearing" = inr (hearing request) /\
  validate_field json "mobility" = inr (mobility request) /\
  validate_field json "self_care" = inr (self_care request) /\
  validate_field json "vision" = inr (vision request).
Proof.
  unfold validate_request.
  destruct (validate_field json "cognition"),
           (validate_field json "communication"),
           (validate_field json "hearing"),
           (validate_field json "mobility"),
           (validate_field json "self_care"),
           (validate_field json "vision"); try discriminate.
  intros [= <-]. repeat split.
Qed.

Lemma validate_request_rejects json :
  ill_formed json ->
  exists err errors, validate_request json = inl (err :: errors).
Proof.
  intros (field & Hin & Hbad).
  apply validate_field_bad in Hbad as [err Herr].
  destruct (validate_request json) as [errors | request] eqn:Hv.
  - destruct errors as [| e errors]; [| eauto].
    exfalso. revert Hv. unfold validate_request.
    unfold request_fields in Hin.
    repeat (apply elem_of_cons in Hin as [-> | Hin]);
      [.. | now apply elem_of_nil in Hin];
      rewrite Herr;
      repeat (match goal with
              | |- context [validate_field json ?f] =>
                destruct (validate_field json f)
              end);
      cbn [field_errors app]; intros [= H];
      repeat (match goal with
              | H : _ ++ _ = [] |- _ => apply app_eq_nil in H as [? H]
              end); discriminate.
  - exfalso. apply validate_request_ok in Hv.
    destruct Hv as (Hc & Hco & Hh & Hm & Hs & Hvi).
    unfold request_fields in Hin.
    repeat (apply elem_of_cons in Hin as [-> | Hin]);
      [.. | now apply elem_of_nil in Hin]; congruence.
Qed.

(** Bodies with integer members: when one of the six fields is absent, or
    holds an integer other than 0 and 1, the answer has status 422 and the
    validation errors; the predictor is not called. *)
Lemma invalid_request_rejected g json :
  ill_formed json ->
  exists err errors,
    route_predict g json =
    ([], inr {| status := 422; body := ValidationBody (err :: errors) |}).
Proof.
  intros Hbad. apply validate_request_rejects in Hbad as (err & errors & Hv).
  exists err, errors. unfold route_predict. now rewrite Hv.
Qed.

Lemma invalid_request_rejected_witness :
  exists err errors,
    route_predict demo_globals cognition_two =
    ([], inr {| status := 422; body := ValidationBody (err :: errors) |}).
Proof.
  apply (invalid_request_rejected demo_globals cognition_two).
  exists "cognition"%string. split; [unfold request_fields; set_solver |].
  right. exists 2. split; [reflexivity | lia].
Defined.

Example cognition_two_response :
  route_predict demo_globals cognition_two =
  ([], inr {| status := 422;
              body := ValidationBody [LessThanEqual "cognition" 2] |}) /\
  route_predict demo_globals (delete "vision" (features_of all_ones)) =
  ([], inr {| status := 422; body := ValidationBody [Missing "vision"] |}).
Proof. split; reflexivity. Qed.

(** A body that passes validation reaches the predictor, once. *)
Lemma valid_request_predicted g json request :
  validate_request json = inr request ->
  binary request = true /\
  calls (route_predict g json) = [features_of request].
Proof.
  intros Hv. pose proof (validate_request_ok _ _ Hv) as (Hc & Hco & Hh & Hm & Hs & Hvi).
  split.
  - apply validate_field_good in Hc as [_ Hc], Hco as [_ Hco], Hh as [_ Hh],
      Hm as [_ Hm], Hs as [_ Hs], Hvi as [_ Hvi].
    unfold binary, is_flag.
    repeat (apply andb_true_iff; split); lia.
  - unfold route_predict. rewrite Hv, predict_demand_unfold.
    unfold calls, try_except, mbind, M_bind, bind, ret.
    destruct (predict_smart_glasses_demand g (features_of request))
      as [[? ?|? ?] | [? ?]]; reflexivity.
Qed.

(** * Further properties *)

(** ** Rounding *)

Lemma py_round_cases x :
  py_round x = Qfloor x \/ py_round x = Qfloor x + 1.
Proof.
  unfold py_round.
  destruct (x - inject_Z (Qfloor x) ?= 1 # 2)%Q; auto.
  destruct (Z.even (Qfloor x)); auto.
Qed.

(** [round(x)] is within one half of [x]. *)
Lemma py_round_near x :
  (x - (1 # 2) <= inject_Z (py_round x) <= x + (1 # 2))%Q.
Proof.
  pose proof (Qfloor_le x) as Hlo. pose proof (Qlt_floor x) as Hhi.
  rewrite inject_Z_plus in Hhi. change (inject_Z 1) with 1%Q in Hhi.
  unfold py_round.
  destruct (x - inject_Z (Qfloor x) ?= 1 # 2)%Q eqn:Hc.
  - apply Qeq_alt in Hc.
    destruct (Z.even (Qfloor x)); [| rewrite inject_Z_plus;
      change (inject_Z 1) with 1%Q]; lra.
  - apply Qlt_alt in Hc. lra.
  - apply Qgt_alt in Hc. rewrite inject_Z_plus.
    change (inject_Z 1) with 1%Q. lra.
Qed.

Lemma py_round_lower (k : Z) x : (inject_Z k <= x)%Q -> k <= py_round x.
Proof.
  intros H. apply Qfloor_resp_le in H. rewrite Qfloor_Z in H.
  destruct (py_round_cases x) as [-> | ->]; lia.
Qed.

Lemma py_round_upper (k : Z) x : (x <= inject_Z k)%Q -> py_round x <= k.
Proof.
  intros H. pose proof (py_round_near x) as [_ Hhi].
  assert (Hlt : (inject_Z (py_round x) < inject_Z (k + 1))%Q).
  { rewrite inject_Z_plus. change (inject_Z 1) with 1%Q. lra. }
  rewrite <- Zlt_Qlt in Hlt. lia.
Qed.

(** Strict versions, for thresholds that are not integers. *)
Lemma py_round_below (k : Z) x :
  (x < inject_Z k + (1 # 2))%Q -> py_round x <= k.
Proof.
  intros H. pose proof (py_round_near x) as [_ Hhi].
  assert (Hlt : (inject_Z (py_round x) < inject_Z (k + 1))%Q).
  { rewrite inject_Z_plus. change (inject_Z 1) with 1%Q. lra. }
  rewrite <- Zlt_Qlt in Hlt. lia.
Qed.

Lemma py_round_above (k : Z) x :
  (inject_Z k - (1 # 2) < x)%Q -> k <= py_round x.
Proof.
  intros H. pose proof (py_round_near x) as [Hlo _].
  assert (Hlt : (inject_Z k < inject_Z (py_round x + 1))%Q).
  { rewrite inject_Z_plus. change (inject_Z 1) with 1%Q. lra. }
  rewrite <- Zlt_Qlt in Hlt. lia.
Qed.

(** ** From raw output to score and confidence *)

(** The score cuts the raw output at 1.5 and 2.5. *)
Lemma score_cuts r :
  ((r < 1.5)%Q -> score_of_prediction r = 1) /\
  ((1.5 <= r <= 2.5)%Q -> score_of_prediction r = 2) /\
  ((2.5 < r)%Q -> score_of_prediction r = 3).
Proof.
  rewrite score_of_prediction_clamp. unfold clampZ.
  split; [| split].
  - intros H. pose proof (py_round_below 1 r) as Hb.
    change (inject_Z 1) with 1%Q in Hb. assert (py_round r <= 1) by (apply Hb; lra).
    lia.
  - intros [Hlo Hhi].
    destruct (Qlt_le_dec 1.5 r) as [Hlo' | Hlo'];
      [destruct (Qlt_le_dec r 2.5) as [Hhi' | Hhi'] |].
    + pose proof (py_round_below 2 r) as Hb. pose proof (py_round_above 2 r) as Ha.
      change (inject_Z 2) with 2%Q in Hb, Ha.
      assert (py_round r <= 2) by (apply Hb; lra).
      assert (2 <= py_round r) by (apply Ha; lra). lia.
    + rewrite (py_round_comp r 2.5) by lra. reflexivity.
    + rewrite (py_round_comp r 1.5) by lra. reflexivity.
  - intros H. pose proof (py_round_above 3 r) as Ha.
    change (inject_Z 3) with 3%Q in Ha. assert (3 <= py_round r) by (apply Ha; lra).
    lia.
Qed.

(** X1. The score is 1 exactly for a raw output below 1.5, 3 exactly for one
    above 2.5, and 2 exactly from 1.5 to 2.5 inclusive: both ties round to
    the even integer 2. *)
Theorem score_thresholds r :
  (score_of_prediction r = 1 <-> (r < 1.5)%Q) /\
  (score_of_prediction r = 2 <-> (1.5 <= r <= 2.5)%Q) /\
  (score_of_prediction r = 3 <-> (2.5 < r)%Q).
Proof.
  pose proof (score_cuts r) as (H1 & H2 & H3).
  destruct (Qlt_le_dec r 1.5) as [Ha | Ha].
  - rewrite (H1 Ha). repeat split; intros; try lia; try lra; assumption.
  - destruct (Qlt_le_dec 2.5 r) as [Hb | Hb].
    + rewrite (H3 Hb). repeat split; intros; try lia; try lra; assumption.
    + rewrite (H2 (conj Ha Hb)). repeat split; intros; try lia; try lra.
Qed.

Lemma score_thresholds_witness :
  score_of_prediction 1.49 = 1 /\ score_of_prediction 1.5 = 2 /\
  score_of_prediction 2.5 = 2 /\ score_of_prediction 2.51 = 3.
Proof.
  split; [apply (score_thresholds 1.49); reflexivity |].
  split; [apply (score_thresholds 1.5); split; discriminate |].
  split; [apply (score_thresholds 2.5); split; discriminate |].
  apply (score_thresholds 2.51); reflexivity.
Defined.

(** X2. A raw output at or below 0.6, or at or above 3.4, leaves the score
    range by so much that the confidence is the minimum, 0.60. *)
Theorem out_of_range_confidence r :
  (r <= 0.6)%Q \/ (3.4 <= r)%Q ->
  (confidence_of_prediction r == 0.60)%Q.
Proof.
  intros Hr. rewrite confidence_of_prediction_clamp.
  pose proof (score_cuts r) as (H1 & _ & H3).
  rewrite <- score_of_prediction_clamp.
  destruct Hr as [Hr | Hr].
  - rewrite H1 by lra. change (inject_Z 1) with 1%Q.
    assert (Hd : (Qabs (r - 1) == - (r - 1))%Q) by (apply Qabs_neg; lra).
    generalize dependent (Qabs (r - 1)). intros d Hd. unfold clampQ.
    destruct (Qlt_le_dec _ _); [reflexivity |].
    destruct (Qlt_le_dec _ _); lra.
  - rewrite H3 by lra. change (inject_Z 3) with 3%Q.
    assert (Hd : (Qabs (r - 3) == r - 3)%Q) by (apply Qabs_pos; lra).
    generalize dependent (Qabs (r - 3)). intros d Hd. unfold clampQ.
    destruct (Qlt_le_dec _ _); [reflexivity |].
    destruct (Qlt_le_dec _ _); lra.
Qed.

Lemma out_of_range_confidence_witness :
  (confidence_of_prediction (-2) == 0.60)%Q /\
  (confidence_of_prediction 3.4 == 0.60)%Q.
Proof.
  split.
  - apply (out_of_range_confidence (-2)). left. discriminate.
  - apply (out_of_range_confidence 3.4). right. discriminate.
Defined.

(** Rounding to [n] decimals cannot cross a bound that has at most [n]
    decimals itself. *)
Lemma py_round_ndigits_range (a b : Z) x n :
  let p := inject_Z (10 ^ Z.of_nat n) in
  (inject_Z a / p <= x <= inject_Z b / p)%Q ->
  (inject_Z a / p <= py_round_ndigits x n <= inject_Z b / p)%Q.
Proof.
  intros p [Hlo Hhi].
  assert (Hp : (0 < p)%Q).
  { unfold p. change 0%Q with (inject_Z 0). rewrite <- Zlt_Qlt.
    apply Z.pow_pos_nonneg; lia. }
  assert (Ha : (inject_Z a <= x * p)%Q).
  { apply (Qmult_le_r _ _ p Hp) in Hlo.
    assert (He : (inject_Z a / p * p == inject_Z a)%Q) by (field; lra).
    now rewrite He in Hlo. }
  assert (Hb : (x * p <= inject_Z b)%Q).
  { apply (Qmult_le_r _ _ p Hp) in Hhi.
    assert (He : (inject_Z b / p * p == inject_Z b)%Q) by (field; lra).
    now rewrite He in Hhi. }
  apply py_round_lower in Ha. apply py_round_upper in Hb.
  unfold py_round_ndigits. fold p.
  rewrite Zle_Qle in Ha, Hb.
  split.
  - apply Qle_shift_div_l; [exact Hp |].
    assert (He : (inject_Z a / p * p == inject_Z a)%Q) by (field; lra).
    now rewrite He.
  - apply Qle_shift_div_r; [exact Hp |].
    assert (He : (inject_Z b / p * p == inject_Z b)%Q) by (field; lra).
    now rewrite He.
Qed.

(** X3. The score never goes down when the raw output goes up. *)
Theorem score_monotone r1 r2 :
  (r1 <= r2)%Q -> score_of_prediction r1 <= score_of_prediction r2.
Proof.
  intros Hle.
  pose proof (score_cuts r1) as (A1 & A2 & A3).
  pose proof (score_cuts r2) as (B1 & B2 & B3).
  destruct (Qlt_le_dec r1 1.5) as [Ha | Ha].
  - rewrite A1 by exact Ha.
    destruct (Qlt_le_dec r2 1.5); [rewrite B1 by assumption; lia |].
    destruct (Qlt_le_dec 2.5 r2); [rewrite B3 | rewrite B2]; try lia; lra.
  - destruct (Qlt_le_dec 2.5 r1) as [Hb | Hb].
    + rewrite A3, B3 by lra. lia.
    + rewrite A2 by lra.
      destruct (Qlt_le_dec 2.5 r2); [rewrite B3 | rewrite B2]; try lia; lra.
Qed.

Lemma score_monotone_witness :
  score_of_prediction 1.2 <= score_of_prediction 2.7.
Proof. apply (score_monotone 1.2 2.7). discriminate. Defined.

Lemma predict_confidence_range g features score conf :
  predict_smart_glasses_demand g features = inr (score, conf) ->
  (0.60 <= conf <= 0.95)%Q.
Proof.
  unfold predict_smart_glasses_demand.
  destruct (model g) as [mdl|], (scaler g) as [scl|];
    try (intros [= _ <-]; split; discriminate).
  destruct (build_feature_data features) as [e|fd]; [discriminate |].
  destruct (transform scl _) as [e|row]; [discriminate |].
  destruct (predict mdl row) as [e|r]; [discriminate |].
  intros [= _ <-]. rewrite confidence_of_prediction_clamp.
  apply clampQ_range. lra.
Qed.

Lemma round3_confidence_range conf :
  (0.60 <= conf <= 0.95)%Q ->
  (0.60 <= py_round_ndigits conf 3 <= 0.95)%Q.
Proof.
  intros H. pose proof (py_round_ndigits_range 600 950 conf 3) as Hr.
  cbv zeta in Hr.
  assert (H60 : (inject_Z 600 / inject_Z (10 ^ Z.of_nat 3) == 0.60)%Q)
    by reflexivity.
  assert (H95 : (inject_Z 950 / inject_Z (10 ^ Z.of_nat 3) == 0.95)%Q)
    by reflexivity.
  rewrite H60, H95 in Hr. apply Hr, H.
Qed.

(** X4. The confidence that leaves the service - in a [/predict] response,
    in a batch result entry, in the [/health] self-test - is the predictor's
    confidence rounded to three decimals, and is still within [0.60, 0.95]. *)
Theorem reported_confidence_range g request i :
  match outcome (predict_demand g request) with
  | inr response => (0.60 <= confidence response <= 0.95)%Q
  | inl _ => demo_mode g = false
  end /\
  match outcome (batch_item g (Z.of_nat i) request) with
  | inr (BatchResult _ _ _ conf) => (0.60 <= conf <= 0.95)%Q
  | _ => demo_mode g = false
  end /\
  match outcome (health_check g) with
  | inr (Healthy _ _ _ _ conf) => (0.60 <= conf <= 0.95)%Q
  | _ => demo_mode g = false
  end.
Proof.
  rewrite predict_demand_unfold, batch_item_unfold, health_check_unfold.
  unfold outcome, entry_of. cbn [snd].
  split; [| split].
  - destruct (predict_smart_glasses_demand g (features_of request))
      as [e | [score conf]] eqn:Hp.
    + apply predict_failure_any in Hp. now destruct e.
    + apply round3_confidence_range, (predict_confidence_range _ _ _ _ Hp).
  - destruct (predict_smart_glasses_demand g (features_of request))
      as [e | [score conf]] eqn:Hp.
    + now apply predict_failure_any in Hp.
    + apply round3_confidence_range, (predict_confidence_range _ _ _ _ Hp).
  - destruct (predict_smart_glasses_demand g (features_of all_ones))
      as [e | [score conf]] eqn:Hp.
    + now apply predict_failure_any in Hp.
    + apply round3_confidence_range, (predict_confidence_range _ _ _ _ Hp).
Qed.

(** ** A features dictionary that lacks a key *)

Lemma build_feature_data_missing features key :
  key ∈ request_fields -> features !! key = None ->
  exists e, build_feature_data features = inl e.
Proof.
  intros Hin Hnone. unfold request_fields in Hin.
  unfold build_feature_data, engineer, getitem.
  repeat (apply elem_of_cons in Hin as [-> | Hin]);
    [.. | now apply elem_of_nil in Hin];
    rewrite ?Hnone;
    repeat (match goal with
            | |- context [features !! ?k] =>
              lazymatch k with
              | context [String] => destruct (features !! k)
              end
            end); eauto.
Qed.

(** X5. Given a dictionary that lacks one of the six keys, the predictor in
    fallback mode still returns (it only sums the values present), while
    with both artifacts loaded it raises - not the [HTTPException] of its
    handler but an [UnboundLocalError], because the handler reads
    [feature_data], which the failed [try] body never bound.  Neither the
    scaler nor the model is consulted. *)
Theorem missing_key_behaviour g features key :
  key ∈ request_fields -> features !! key = None ->
  (demo_mode g = true ->
   predict_smart_glasses_demand g features
     = inr (clampZ 1 3 (1 + sum_values features / 2), 0.75%Q)) /\
  (demo_mode g = false ->
   predict_smart_glasses_demand g features
     = inl (UnboundLocalError "feature_data")).
Proof.
  intros Hin Hnone. split; [apply predict_fallback |].
  destruct (build_feature_data_missing _ _ Hin Hnone) as [e He].
  unfold demo_mode, predict_smart_glasses_demand. rewrite He.
  destruct (model g), (scaler g); try discriminate. reflexivity.
Qed.

Lemma missing_key_behaviour_witness :
  predict_smart_glasses_demand demo_globals (delete "vision" (features_of all_ones))
    = inr (clampZ 1 3
             (1 + sum_values (delete "vision" (features_of all_ones)) / 2),
           0.75%Q) /\
  predict_smart_glasses_demand (constant_globals 2) (delete "vision" (features_of all_ones))
    = inl (UnboundLocalError "feature_data").
Proof.
  split.
  - apply (missing_key_behaviour demo_globals
             (delete "vision" (features_of all_ones)) "vision");
      [unfold request_fields; set_solver | reflexivity | reflexivity].
  - apply (missing_key_behaviour (constant_globals 2)
             (delete "vision" (features_of all_ones)) "vision");
      [unfold request_fields; set_solver | reflexivity | reflexivity].
Defined.

(** ** How a failure of the loaded pipeline surfaces *)




(** ** Batch against single prediction *)

(** X7. In an accepted batch, entry [i] repeats what [/predict] answers for
    item [i]: the same score, level and confidence when [/predict] answers,
    and an error entry exactly when [/predict] raises. *)
Theorem batch_agrees_with_predict g requests :
  (length requests <= 50)%nat ->
  exists results,
    outcome (predict_batch g requests) = inr results /\
    forall (i : nat) request,
      requests !! i = Some request ->
      exists entry,
        results !! i = Some entry /\
        match outcome (predict_demand g request) with
        | inr response => entry_matches i response entry
        | inl _ => is_error_entry i entry
        end.
Proof.
  intros Hlen. rewrite (predict_batch_accepted g requests Hlen).
  eexists. split; [reflexivity |].
  intros i request Hi. rewrite list_lookup_imap, Hi. cbn [fmap option_fmap option_map].
  eexists. split; [reflexivity |].
  rewrite predict_demand_unfold. unfold outcome, entry_of. cbn [snd].
  destruct (predict_smart_glasses_demand g (features_of request))
    as [e | [score conf]].
  - destruct e; unfold is_error_entry; eauto.
  - reflexivity.
Qed.

Lemma batch_agrees_with_predict_witness :
  exists results,
    outcome (predict_batch picky_globals [all_zeros; all_ones]) = inr results /\
    forall (i : nat) request,
      [all_zeros; all_ones] !! i = Some request ->
      exists entry,
        results !! i = Some entry /\
        match outcome (predict_demand picky_globals request) with
        | inr response => entry_matches i response entry
        | inl _ => is_error_entry i entry
        end.
Proof.
  apply (batch_agrees_with_predict picky_globals [all_zeros; all_ones]).
  simpl. lia.
Defined.

(** ** Fallback mode never fails *)



(** ** What validation accepts and what it reports *)

Lemma validate_field_flag json field v :
  json !! field = Some v -> is_flag v = true ->
  validate_field json field = inr v.
Proof.
  intros Hl Hf. apply is_flag_range in Hf as Hr.
  unfold validate_field, validate_binary_values. rewrite Hl.
  destruct (Z.ltb_spec v 0); [lia |].
  destruct (Z.ltb_spec 1 v); [lia |].
  case_bool_decide as Hd; [reflexivity |].
  exfalso. apply Hd.
  assert (Hv : v = 0 \/ v = 1) by lia.
  destruct Hv as [Hv | Hv]; rewrite Hv; [left | right; left].
Qed.

(** X9. Validation accepts a body exactly when each of the six fields is
    present with value 0 or 1, and the request it builds carries those six
    values; members of the body under other names play no part. *)
Theorem validate_request_accepts json request :
  validate_request json = inr request <->
  json !! "cognition" = Some (cognition request) /\
  json !! "communication" = Some (communication request) /\
  json !! "hearing" = Some (hearing request) /\
  json !! "mobility" = Some (mobility request) /\
  json !! "self_care" = Some (self_care request) /\
  json !! "vision" = Some (vision request) /\
  binary request = true.
Proof.
  split.
  - intros Hv. pose proof (validate_request_ok _ _ Hv) as (Hc & Hco & Hh & Hm & Hs & Hvi).
    apply validate_field_good in Hc as [Hc Hc'], Hco as [Hco Hco'],
      Hh as [Hh Hh'], Hm as [Hm Hm'], Hs as [Hs Hs'], Hvi as [Hvi Hvi'].
    repeat (split; [assumption |]).
    unfold binary, is_flag. repeat (apply andb_true_iff; split); lia.
  - intros (Hc & Hco & Hh & Hm & Hs & Hvi & Hbin).
    unfold binary in Hbin. rewrite !andb_true_iff in Hbin.
    destruct Hbin as [[[[[Fc Fco] Fh] Fm] Fs] Fv].
    unfold validate_request.
    rewrite (validate_field_flag _ _ _ Hc Fc), (validate_field_flag _ _ _ Hco Fco),
      (validate_field_flag _ _ _ Hh Fh), (validate_field_flag _ _ _ Hm Fm),
      (validate_field_flag _ _ _ Hs Fs), (validate_field_flag _ _ _ Hvi Fv).
    now destruct request.
Qed.

(** A body with the six flags and a member nobody asked for. *)
Lemma validate_request_accepts_witness :
  validate_request (<["region" := 7]> (features_of vision_only))
    = inr vision_only.
Proof.
  apply (validate_request_accepts
           (<["region" := 7]> (features_of vision_only)) vision_only).
  repeat split.
Defined.

Lemma validate_field_errors json field :
  field ∈ request_fields ->
  Forall (explains json) (field_errors (validate_field json field)).
Proof.
  intros Hin. unfold validate_field, validate_binary_values.
  destruct (json !! field) as [v|] eqn:Hl.
  - destruct (Z.ltb_spec v 0).
    { repeat constructor. exists field. split; [exact Hin |]. right. left. eauto. }
    destruct (Z.ltb_spec 1 v).
    { repeat constructor. exists field. split; [exact Hin |]. right. right. eauto. }
    case_bool_decide as Hd; [constructor |].
    exfalso. apply Hd.
    assert (Hv : v = 0 \/ v = 1) by lia.
    destruct Hv as [Hv | Hv]; rewrite Hv; [left | right; left].
  - repeat constructor. exists field. split; [exact Hin |]. left. auto.
Qed.

Lemma validate_field_inl json field errs :
  validate_field json field = inl errs -> exists err, errs = [err].
Proof.
  unfold validate_field, validate_binary_values.
  destruct (json !! field) as [v|]; [| intros [= <-]; eauto].
  destruct (v <? 0); [intros [= <-]; eauto |].
  destruct (1 <? v); [intros [= <-]; eauto |].
  case_bool_decide; [discriminate | intros [= <-]; eauto].
Qed.

Lemma validate_request_errors json errors :
  validate_request json = inl errors ->
  errors =
    field_errors (validate_field json "cognition") ++
    field_errors (validate_field json "communication") ++
    field_errors (validate_field json "hearing") ++
    field_errors (validate_field json "mobility") ++
    field_errors (validate_field json "self_care") ++
    field_errors (validate_field json "vision") /\
  (1 <= length errors <= 6)%nat.
Proof.
  unfold validate_request.
  destruct (validate_field json "cognition") as [l1|v1] eqn:E1,
           (validate_field json "communication") as [l2|v2] eqn:E2,
           (validate_field json "hearing") as [l3|v3] eqn:E3,
           (validate_field json "mobility") as [l4|v4] eqn:E4,
           (validate_field json "self_care") as [l5|v5] eqn:E5,
           (validate_field json "vision") as [l6|v6] eqn:E6;
    try discriminate;
    repeat (match goal with
            | H : validate_field _ _ = inl _ |- _ =>
              apply validate_field_inl in H as [? ->]
            end);
    intros [= <-]; (split; [reflexivity | simpl; lia]).
Qed.

(** X10. When validation rejects a body it reports between one and six
    errors, each naming one of the six fields and a defect the body really
    has there: the field is absent, or its value is below 0, or above 1.
    No error ever comes from [validate_binary_values]: an integer that
    passes [ge=0] and [le=1] is already 0 or 1. *)
Theorem validation_errors_explained json errors :
  validate_request json = inl errors ->
  (1 <= length errors <= 6)%nat /\ Forall (explains json) errors.
Proof.
  intros Hv. apply validate_request_errors in Hv as [-> Hlen].
  split; [exact Hlen |].
  repeat (apply Forall_app; split);
    apply validate_field_errors; unfold request_fields; repeat constructor.
Qed.

Lemma validation_errors_explained_witness :
  (1 <= length [LessThanEqual "cognition" 2] <= 6)%nat /\
  Forall (explains cognition_two) [LessThanEqual "cognition" 2].
Proof.
  apply (validation_errors_explained cognition_two). reflexivity.
Defined.

(** ** The [/predict] route as a whole *)


(** ** Startup *)

(** X12. A freshly started process is in model mode exactly when both loads
    succeeded.  If either failed, startup does not fail: the expected names
    are the nine defaults, every request is predicted by the fallback rule,
    and [/health] answers healthy with [demo_mode] set. *)
Theorem startup_mode load_model load_scaler :
  let g := startup load_model load_scaler in
  (demo_mode g = false <->
   exists m s, load_model = inr m /\ load_scaler = inr s) /\
  (demo_mode g = true ->
   actual_feature_names g = fallback_feature_names /\
   (forall request,
      predict_smart_glasses_demand g (features_of request)
        = inr (clampZ 1 3 (1 + flag_sum request / 2), 0.75%Q)) /\
   exists conf,
     outcome (health_check g) = inr (Healthy false true true 3 conf)).
Proof.
  cbv zeta. split.
  - unfold startup, lifespan, demo_mode.
    destruct load_model as [e|m]; [| destruct load_scaler as [e|s]]; cbn;
      split; try discriminate; eauto;
      intros (m' & s' & H1 & H2); discriminate.
  - intros Hdemo. split; [| split].
    + revert Hdemo. unfold startup, lifespan, demo_mode.
      destruct load_model as [e|m]; [| destruct load_scaler as [e|s]]; cbn;
        [reflexivity | reflexivity | discriminate].
    + intros request.
      now rewrite (predict_fallback _ _ Hdemo), sum_values_features_of.
    + rewrite health_check_unfold, (predict_fallback _ _ Hdemo), Hdemo.
      unfold outcome. cbn [snd negb]. eauto.
Qed.

(** X13. When the model file loads and the scaler file does not, the
    endpoints disagree about the state: [/] reports ["Model loaded"],
    because it looks at [model] only, while [/health] reports
    [model_loaded = false] and [demo_mode = true], and predictions are the
    fallback ones. *)
Theorem half_loaded_reports m e request :
  let g := startup (inr m) (inl e) in
  service_status (root g) = "Model loaded"%string /\
  (exists conf,
     outcome (health_check g) = inr (Healthy false true true 3 conf)) /\
  predict_smart_glasses_demand g (features_of request)
    = inr (clampZ 1 3 (1 + flag_sum request / 2), 0.75%Q).
Proof.
  cbv zeta.
  assert (Hdemo : demo_mode (startup (inr m) (inl e)) = true) by reflexivity.
  split; [reflexivity |]. split.
  - rewrite health_check_unfold, (predict_fallback _ _ Hdemo), Hdemo.
    unfold outcome. cbn [snd negb]. eauto.
  - now rewrite (predict_fallback _ _ Hdemo), sum_values_features_of.
Qed.

(** [/] says ["Demo mode"] only when the model itself is absent. *)
Lemma root_status g :
  service_status (root g) = "Demo mode"%string <-> model g = None.
Proof. unfold root. cbn. destruct (model g); split; congruence. Qed.

(** ** The row given to the scaler *)

Lemma predict_runs_pipeline g mdl scl request :
  model g = Some mdl -> scaler g = Some scl ->
  predict_smart_glasses_demand g (features_of request) =
  match transform scl (scaler_input g request) with
  | inl e => inl (HTTPException 500 ("Prediction error: " +:+ exn_str e))
  | inr features_scaled =>
    match predict mdl features_scaled with
    | inl e => inl (HTTPException 500 ("Prediction error: " +:+ exn_str e))
    | inr r => inr (score_of_prediction r, confidence_of_prediction r)
    end
  end.
Proof.
  intros Hm Hs. unfold predict_smart_glasses_demand, scaler_input.
  now rewrite Hm, Hs, build_feature_data_features_of.
Qed.

(** X14. With both artifacts loaded and neither carrying feature names, the
    scaler is given nine cells - the six flags in declaration order, then
    the flag total, vision plus mobility, and the readiness percentage -
    and the answer is the score and confidence of what the model returns
    for the scaled row. *)
Theorem default_row_pipeline mdl scl request features_scaled r :
  let g := startup (plain mdl) (plain scl) in
  transform scl
    [ inject_Z (cognition request); inject_Z (communication request);
      inject_Z (hearing request); inject_Z (mobility request);
      inject_Z (self_care request); inject_Z (vision request);
      inject_Z (flag_sum request);
      inject_Z (vision request + mobility request);
      ((inject_Z (flag_sum request) / 6) * 100)%Q ] = inr features_scaled ->
  predict mdl features_scaled = inr r ->
  predict_smart_glasses_demand g (features_of request)
    = inr (score_of_prediction r, confidence_of_prediction r).
Proof.
  cbv zeta. intros Ht Hp.
  rewrite (predict_runs_pipeline _ mdl scl) by reflexivity.
  unfold scaler_input, startup, lifespan, plain. cbn [actual_feature_names feature_names_in_].
  rewrite feature_row_of_request, Ht, Hp. reflexivity.
Qed.

Lemma default_row_pipeline_witness :
  predict_smart_glasses_demand
    (startup (plain (constant_model 2.25)) (plain identity_scaler))
    (features_of all_ones)
  = inr (score_of_prediction 2.25, confidence_of_prediction 2.25).
Proof.
  apply (default_row_pipeline (constant_model 2.25) identity_scaler all_ones
           (scaler_input (constant_globals 2.25) all_ones) 2.25); reflexivity.
Defined.

Lemma feature_data_of_unknown request name :
  name ∉ feature_data_keys -> feature_data_of request !! name = None.
Proof.
  unfold feature_data_keys, fallback_feature_names, feature_data_of.
  rewrite !not_elem_of_cons. intros (? & ? & ? & ? & ? & ? & ? & ? & ? & _).
  rewrite !lookup_insert_ne by congruence. apply lookup_empty.
Qed.

(** The cells of [scaler_input]: one per expected name, in the order of
    the names; 0 for a name that is not one of the nine built. *)
Lemma scaler_input_cells g request :
  length (scaler_input g request) = length (actual_feature_names g) /\
  forall (i : nat) name,
    actual_feature_names g !! i = Some name ->
    exists cell,
      scaler_input g request !! i = Some cell /\
      (name ∉ feature_data_keys -> cell = 0%Q) /\
      (name = "Training related to Vision"%string ->
       cell = inject_Z (vision request)) /\
      (name = "vision_mobility_score"%string ->
       cell = inject_Z (vision request + mobility request)).
Proof.
  unfold scaler_input, feature_row. split; [apply length_fmap |].
  intros i name Hi. rewrite list_lookup_fmap, Hi. cbn [fmap option_fmap option_map].
  eexists. split; [reflexivity |]. split; [| split].
  - intros Hname. now rewrite feature_data_of_unknown.
  - intros ->. reflexivity.
  - intros ->. reflexivity.
Qed.

(** Expected names in another order and with a stranger among them. *)
Example scaler_input_reordered :
  scaler_input
    {| model := Some (constant_model 2); scaler := Some identity_scaler;
       actual_feature_names :=
         ["vision_mobility_score"; "region_code";
          "Training related to Vision"]%string |}
    vision_only
  = [inject_Z 1; 0%Q; inject_Z 1].
Proof. reflexivity. Qed.

(** ** [GET /model-info] *)

(** X16. [/model-info] describes the service as it behaves: the features it
    lists are the expected names and [feature_count] is their number (0 for
    none); [api_inputs] are exactly the keys of the dictionary built from a
    request; and every score the predictor can return has a legend entry,
    which is the level [get_demand_interpretation] gives that score
    followed by [" Demand"]. *)
Theorem model_info_consistent g attrs :
  let info := get_model_info g attrs in
  features info = actual_feature_names g /\
  feature_count info = Z.of_nat (length (features info)) /\
  (forall request,
     dom (features_of request) = list_to_set (api_inputs info)) /\
  (forall features score conf,
     predict_smart_glasses_demand g features = inr (score, conf) ->
     demand_levels info !! score
       = Some (fst (get_demand_interpretation score) +:+ " Demand")).
Proof.
  cbv zeta. split; [reflexivity |]. split; [| split].
  - unfold get_model_info. cbn [feature_count features].
    now destruct (actual_feature_names g).
  - intros request. unfold features_of, get_model_info. cbn [api_inputs].
    rewrite !dom_insert_L, dom_empty_L. cbn [list_to_set foldr].
    set_solver.
  - intros features score conf Hp. apply predict_score_range in Hp.
    assert (Hs : score = 1 \/ score = 2 \/ score = 3) by lia.
    destruct Hs as [Hs | [Hs | Hs]]; rewrite Hs; reflexivity.
Qed.

(** ** [GET /health] against [/predict] *)

(** X17. The self-test of [/health] is [/predict] on the all-ones request:
    when that answers, [/health] is healthy and shows its score and
    confidence; when that raises, [/health] is unhealthy and shows the text
    of the same exception.  An unhealthy answer says [model_loaded = false]
    although it can only arise with both artifacts loaded. *)
Theorem health_agrees_with_predict g :
  match outcome (predict_demand g all_ones) with
  | inr response =>
    outcome (health_check g) =
    inr (Healthy (negb (demo_mode g)) true (demo_mode g)
                 (demand_score response) (confidence response))
  | inl e =>
    outcome (health_check g) = inr (Unhealthy false (exn_str e)) /\
    demo_mode g = false
  end.
Proof.
  rewrite predict_demand_unfold, health_check_unfold. unfold outcome. cbn [snd].
  destruct (predict_smart_glasses_demand g (features_of all_ones))
    as [e | [score conf]] eqn:Hp; [| reflexivity].
  destruct (predict_failure g all_ones e Hp) as [Hd [detail ->]]. auto.
Qed.

(** ** Confidence near a level *)

(** X18. A raw output within 0.05 of one of the levels 1, 2, 3 is given that
    level as its score and the maximum confidence, 0.95. *)
Theorem near_level_confidence r (k : Z) :
  1 <= k <= 3 ->
  (Qabs (r - inject_Z k) <= 0.05)%Q ->
  score_of_prediction r = k /\ (confidence_of_prediction r == 0.95)%Q.
Proof.
  intros Hk Hnear.
  apply Qabs_Qle_condition in Hnear as [Hlo Hhi].
  pose proof (score_cuts r) as (H1 & H2 & H3).
  assert (Hscore : score_of_prediction r = k).
  { assert (Hc : k = 1 \/ k = 2 \/ k = 3) by lia.
    destruct Hc as [-> | [-> | ->]].
    - change (inject_Z 1) with 1%Q in Hlo, Hhi. apply H1. lra.
    - change (inject_Z 2) with 2%Q in Hlo, Hhi. apply H2. lra.
    - change (inject_Z 3) with 3%Q in Hlo, Hhi. apply H3. lra. }
  split; [exact Hscore |].
  rewrite confidence_of_prediction_clamp, <- score_of_prediction_clamp, Hscore.
  assert (Hd : (0 <= Qabs (r - inject_Z k) <= 0.05)%Q).
  { split; [apply Qabs_nonneg | apply Qabs_Qle_condition; split; assumption]. }
  generalize dependent (Qabs (r - inject_Z k)). intros d Hd.
  unfold clampQ.
  destruct (Qlt_le_dec _ _); [lra |].
  destruct (Qlt_le_dec _ _); lra.
Qed.

Lemma near_level_confidence_witness :
  score_of_prediction 2.04 = 2 /\ (confidence_of_prediction 2.04 == 0.95)%Q.
Proof.
  apply (near_level_confidence 2.04 2); [lia | discriminate].
Defined.

(** ** The row the predictor hands to the scaler *)

(** X15. With both artifacts loaded the predictor hands [scaler.transform]
    one row, the same whatever scaler and model are loaded, and answers from
    what they make of it.  That row has exactly one cell per expected name,
    in the order of the names; a name that is not one of the nine the
    predictor builds gets the cell 0, and a name that is gets the request's
    value for it wherever it stands in the order - shown for the vision
    flag and the vision-plus-mobility score. *)
Theorem scaler_row_cells names request :
  exists row,
    (forall mdl scl,
       predict_smart_glasses_demand
         {| model := Some mdl; scaler := Some scl;
            actual_feature_names := names |}
         (features_of request) =
       match transform scl row with
       | inl e => inl (HTTPException 500 ("Prediction error: " +:+ exn_str e))
       | inr features_scaled =>
         match predict mdl features_scaled with
         | inl e => inl (HTTPException 500 ("Prediction error: " +:+ exn_str e))
         | inr r => inr (score_of_prediction r, confidence_of_prediction r)
         end
       end) /\
    length row = length names /\
    forall (i : nat) name,
      names !! i = Some name ->
      exists cell,
        row !! i = Some cell /\
        (name ∉ feature_data_keys -> cell = 0%Q) /\
        (name = "Training related to Vision"%string ->
         cell = inject_Z (vision request)) /\
        (name = "vision_mobility_score"%string ->
         cell = inject_Z (vision request + mobility request)).
Proof.
  exists (feature_row names (feature_data_of request)).
  split; [| split].
  - intros mdl scl.
    apply (predict_runs_pipeline
             {| model := Some mdl; scaler := Some scl;
                actual_feature_names := names |} mdl scl request);
      reflexivity.
  - apply length_fmap.
  - intros i name Hi.
    pose proof (scaler_input_cells
                  {| model := None; scaler := None;
                     actual_feature_names := names |} request) as [_ Hcells].
    apply (Hcells i name Hi).
Qed.

(** A scaler that refuses every row but the one it was built for tells the
    rows apart: the predictor answers only when it is built for the row
    above. *)
Example scaler_row_observed :
  let names := ["vision_mobility_score"; "region_code";
                "Training related to Vision"]%string in
  let expecting (row : list Q) : Scaler :=
    {| transform := fun given =>
         if Nat.eqb (length given) (length row) &&
            forallb (fun cells => Qeq_bool (fst cells) (snd cells))
                    (zip given row)
         then inr given
         else inl (PyError "ValueError" "unexpected row") |} in
  let run row :=
    predict_smart_glasses_demand
      {| model := Some (constant_model 2); scaler := Some (expecting row);
         actual_feature_names := names |}
      (features_of vision_only) in
  run [inject_Z 1; 0%Q; inject_Z 1] = inr (2, 0.95%Q) /\
  run [inject_Z 1; inject_Z 1; 0%Q]
    = inl (HTTPException 500 "Prediction error: unexpected row").
Proof. split; vm_compute; reflexivity. Qed.

(** ** Validation of bodies with members of any JSON kind *)

Lemma validate_body_field_bad str_as_int json field :
  json !! field = None \/
  (exists value, json !! field = Some value /\
                 int_of_value str_as_int value <> Some 0 /\
                 int_of_value str_as_int value <> Some 1) ->
  exists err, validate_body_field str_as_int json field = inl [err].
Proof.
  unfold validate_body_field. intros [-> | (value & -> & H0 & H1)]; [eauto |].
  destruct (int_of_value str_as_int value) as [v|]; [| eauto].
  destruct (Z.ltb_spec v 0); [eauto |].
  destruct (Z.ltb_spec 1 v); [eauto |].
  assert (Hv : v = 0 \/ v = 1) by lia.
  destruct Hv as [-> | ->]; congruence.
Qed.

Lemma validate_body_field_good str_as_int json field v :
  validate_body_field str_as_int json field = inr v ->
  (v = 0 \/ v = 1) /\
  exists value, json !! field = Some value /\
                int_of_value str_as_int value = Some v.
Proof.
  unfold validate_body_field, validate_binary_values.
  destruct (json !! field) as [value|]; [| discriminate].
  destruct (int_of_value str_as_int value) as [w|] eqn:Hw; [| discriminate].
  destruct (Z.ltb_spec w 0); [discriminate |].
  destruct (Z.ltb_spec 1 w); [discriminate |].
  case_bool_decide; [| discriminate].
  intros [= ->]. split; [lia | eauto].
Qed.

Lemma validate_body_ok str_as_int json request :
  validate_body str_as_int json = inr request ->
  validate_body_field str_as_int json "cognition" = inr (cognition request) /\
  validate_body_field str_as_int json "communication" = inr (communication request) /\
  validate_body_field str_as_int json "hearing" = inr (hearing request) /\
  validate_body_field str_as_int json "mobility" = inr (mobility request) /\
  validate_body_field str_as_int json "self_care" = inr (self_care request) /\
  validate_body_field str_as_int json "vision" = inr (vision request).
Proof.
  unfold validate_body. cbv zeta.
  destruct (validate_body_field str_as_int json "cognition"),
           (validate_body_field str_as_int json "communication"),
           (validate_body_field str_as_int json "hearing"),
           (validate_body_field str_as_int json "mobility"),
           (validate_body_field str_as_int json "self_care"),
           (validate_body_field str_as_int json "vision"); try discriminate.
  intros [= <-]. repeat split.
Qed.

Lemma validate_body_rejects str_as_int json :
  unconvertible str_as_int json ->
  exists err errors, validate_body str_as_int json = inl (err :: errors).
Proof.
  intros (field & Hin & Hbad).
  apply (validate_body_field_bad str_as_int) in Hbad as [err Herr].
  destruct (validate_body str_as_int json) as [errors | request] eqn:Hv.
  - destruct errors as [| e errors]; [| eauto].
    exfalso. revert Hv. unfold validate_body. cbv zeta.
    unfold request_fields in Hin.
    repeat (apply elem_of_cons in Hin as [-> | Hin]);
      [.. | now apply elem_of_nil in Hin];
      rewrite Herr;
      repeat (match goal with
              | |- context [validate_body_field str_as_int json ?f] =>
                destruct (validate_body_field str_as_int json f)
              end);
      cbn [body_errors app]; intros [= H];
      repeat (match goal with
              | H : _ ++ _ = [] |- _ => apply app_eq_nil in H as [? H]
              end); discriminate.
  - exfalso. apply validate_body_ok in Hv.
    destruct Hv as (Hc & Hco & Hh & Hm & Hs & Hvi).
    unfold request_fields in Hin.
    repeat (apply elem_of_cons in Hin as [-> | Hin]);
      [.. | now apply elem_of_nil in Hin]; congruence.
Qed.

(** C7 (amended). A [/predict] body in which one of the six fields is
    absent, or holds a value that the [int] conversion does not turn into 0
    or 1, is answered with status 422 and at least one validation error, and
    the predictor is not called.  This holds whatever the library's string
    parser does. *)
Theorem unconvertible_request_rejected str_as_int g json :
  unconvertible str_as_int json ->
  exists err errors,
    post_predict str_as_int g json
      = ([], inr (Unprocessable (err :: errors))) /\
    reply_status (Unprocessable (err :: errors)) = 422.
Proof.
  intros Hbad.
  apply validate_body_rejects in Hbad as (err & errors & Hv).
  exists err, errors. unfold post_predict. rewrite Hv. split; reflexivity.
Qed.

Lemma unconvertible_request_rejected_witness :
  exists err errors,
    post_predict no_strings demo_globals
      (<["cognition" := JInt 2]> (body_of all_ones))
      = ([], inr (Unprocessable (err :: errors))) /\
    reply_status (Unprocessable (err :: errors)) = 422.
Proof.
  apply (unconvertible_request_rejected no_strings demo_globals
           (<["cognition" := JInt 2]> (body_of all_ones))).
  exists "cognition"%string. split; [unfold request_fields; repeat constructor |].
  right. exists (JInt 2). split; [reflexivity |]. split; discriminate.
Defined.

Lemma validate_body_field_flag str_as_int json field value v :
  json !! field = Some value ->
  int_of_value str_as_int value = Some v ->
  is_flag v = true ->
  validate_body_field str_as_int json field = inr v.
Proof.
  intros Hl Hi Hf. apply is_flag_range in Hf as Hr.
  unfold validate_body_field, validate_binary_values. rewrite Hl, Hi.
  destruct (Z.ltb_spec v 0); [lia |].
  destruct (Z.ltb_spec 1 v); [lia |].
  case_bool_decide as Hd; [reflexivity |].
  exfalso. apply Hd.
  assert (Hv : v = 0 \/ v = 1) by lia.
  destruct Hv as [Hv | Hv]; rewrite Hv; [left | right; left].
Qed.

(** A value converts to a flag: it converts, and to 0 or 1. *)
Lemma flag_value_accepted str_as_int json field value v :
  json !! field = Some value ->
  int_of_value str_as_int value = Some v ->
  v = 0 \/ v = 1 ->
  validate_body_field str_as_int json field = inr v.
Proof.
  intros Hl Hi Hv. apply (validate_body_field_flag _ _ _ value); auto.
  unfold is_flag. destruct Hv as [-> | ->]; reflexivity.
Qed.

(** On a body whose members are all integers the conversion changes
    nothing: validation decides as [validate_request] does. *)
Lemma validate_body_field_integers str_as_int json field :
  validate_body_field str_as_int (JInt <$> json) field =
  match validate_field json field with
  | inl errs => inl (Defect <$> errs)
  | inr v => inr v
  end.
Proof.
  unfold validate_body_field, validate_field. rewrite lookup_fmap.
  destruct (json !! field) as [v|]; [| reflexivity]. cbn.
  destruct (v <? 0); [reflexivity |].
  destruct (1 <? v); [reflexivity |].
  now destruct (validate_binary_values v).
Qed.

Lemma validate_body_integers str_as_int json :
  validate_body str_as_int (JInt <$> json) =
  match validate_request json with
  | inl errs => inl (Defect <$> errs)
  | inr request => inr request
  end.
Proof.
  unfold validate_body, validate_request. cbv zeta.
  rewrite !validate_body_field_integers.
  destruct (validate_field json "cognition"),
           (validate_field json "communication"),
           (validate_field json "hearing"),
           (validate_field json "mobility"),
           (validate_field json "self_care"),
           (validate_field json "vision");
    cbn [body_errors field_errors];
    rewrite ?fmap_app, ?fmap_nil; reflexivity.
Qed.

(** So on integer bodies [post_predict] is [route_predict]: the same calls
    of the predictor and the same status. *)
Lemma post_predict_integers str_as_int g json :
  calls (post_predict str_as_int g (JInt <$> json))
    = calls (route_predict g json) /\
  exists reply response,
    outcome (post_predict str_as_int g (JInt <$> json)) = inr reply /\
    outcome (route_predict g json) = inr response /\
    reply_status reply = status response.
Proof.
  unfold post_predict, route_predict. rewrite validate_body_integers.
  destruct (validate_request json) as [errs | request].
  - split; [reflexivity |]. eexists _, _. repeat split.
  - unfold respond. rewrite predict_demand_unfold.
    destruct (predict_smart_glasses_demand g (features_of request))
      as [[sc d | cls msg] | [score conf]];
      (split; [reflexivity |]); eexists _, _; repeat split.
Qed.

Lemma respond_fallback g request :
  demo_mode g = true ->
  respond g request =
  ([features_of request],
   inr {| status := 200;
          body := PredictionBody
                    (response_of request
                       (clampZ 1 3 (1 + flag_sum request / 2)) 0.75) |}).
Proof.
  intros Hdemo. unfold respond.
  now rewrite (predict_demand_fallback g request Hdemo).
Qed.

(** C7, as stated, fails.  With [cognition] sent as the boolean [true] - not
    the integer 0 or 1 - and the other five fields as 1, the conversion
    yields 1: the request is answered with status 200 after the predictor
    has been called on six flags 1.  The same happens with [cognition] sent
    as the string ["1"], as soon as the library's parser reads that string
    as 1. *)
Lemma converted_flag_accepted :
  outside_flags cognition_true /\
  (forall str_as_int,
     exists response,
       post_predict str_as_int demo_globals cognition_true
         = ([features_of all_ones], inr (Replied response)) /\
       reply_status (Replied response) = 200) /\
  outside_flags (cognition_string "1") /\
  (forall str_as_int,
     str_as_int "1"%string = Some 1 ->
     exists response,
       post_predict str_as_int demo_globals (cognition_string "1")
         = ([features_of all_ones], inr (Replied response)) /\
       reply_status (Replied response) = 200).
Proof.
  assert (Hin : "cognition"%string ∈ request_fields)
    by (unfold request_fields; repeat constructor).
  split; [| split; [| split]].
  - exists "cognition"%string. split; [exact Hin |].
    right. exists (JBool true). split; [reflexivity |]. split; discriminate.
  - intros str_as_int. unfold post_predict.
    assert (Hv : validate_body str_as_int cognition_true = inr all_ones)
      by reflexivity.
    rewrite Hv, (respond_fallback demo_globals all_ones eq_refl).
    eexists. split; reflexivity.
  - exists "cognition"%string. split; [exact Hin |].
    right. exists (JStr "1"). split; [reflexivity |]. split; discriminate.
  - intros str_as_int Hone. unfold post_predict.
    assert (Hv : validate_body str_as_int (cognition_string "1") = inr all_ones).
    { unfold validate_body. cbv zeta.
      rewrite (flag_value_accepted str_as_int _ "cognition" (JStr "1") 1);
        [reflexivity | reflexivity | exact Hone | auto]. }
    rewrite Hv, (respond_fallback demo_globals all_ones eq_refl).
    eexists. split; reflexivity.
Qed.

(** Values the conversion never turns into 0 or 1, whatever the parser:
    other integers, floats with a fractional part, non-finite floats,
    [null], arrays and objects. *)
Lemma never_a_flag str_as_int value :
  (exists z, value = JInt z /\ z <> 0 /\ z <> 1) \/
  (exists x, value = JFloat x /\ ~ (x == inject_Z (Qfloor x))%Q) \/
  value = JNonFinite \/ value = JNull \/ value = JArray \/ value = JObject ->
  int_of_value str_as_int value <> Some 0 /\
  int_of_value str_as_int value <> Some 1.
Proof.
  intros [(z & -> & H0 & H1) | [(x & -> & Hx) | [-> | [-> | [-> | ->]]]]];
    cbn; try (split; discriminate).
  - split; congruence.
  - destruct (Qeq_bool x (inject_Z (Qfloor x))) eqn:Hb;
      [apply Qeq_bool_iff in Hb; contradiction | split; discriminate].
Qed.
